(** * Sephora product analysis: a shallow embedding of [sephora_analysis.py]

    The script builds one pandas [DataFrame] from literal columns, adds two
    derived columns and prints a report per method.  The embedding keeps that
    shape:

    - [Py]  : Python's exceptions and the outcome of an evaluation;
    - [F64] : float64 values.  Finite values are carried as exact rationals
              (rounding error is not modelled); the three special values
              [inf], [-inf] and [nan] are kept, because the script can reach
              them (division by a zero price, mean of an empty selection);
    - [IO]  : [print], as the list of printed lines next to the outcome;
    - [pd]  : the pandas operations the script calls, with the defaults it
              relies on ([skipna=True], [right=True], [sort=True],
              [keep='first']);
    - [SephoraAnalyzer] : the class, method by method.  Of
              [visualize_data], which draws charts, the data of the price,
              scatter and brand charts are kept. *)

From Stdlib Require Import ZArith QArith Qabs Qround List String Bool Lia Lqa.
From Stdlib Require Import Sorted OrderedTypeEx.
Import ListNotations.

Open Scope string_scope.
Open Scope Z_scope.

(* ================================================================== *)
(** ** Python: exceptions and outcomes *)

Module Py.

(** The built-in exceptions the script can raise. *)
Inductive exn : Type := ValueError | KeyError | ZeroDivisionError.

Inductive result (A : Type) : Type :=
| Ok (a : A)
| Raise (e : exn).
Arguments Ok {A} a.
Arguments Raise {A} e.

End Py.
Export Py.

(* ================================================================== *)
(** ** float64 *)

Module F64.

Inductive f64 : Type :=
| Fin (q : Q)      (* a finite value *)
| PInf             (* inf  *)
| NInf             (* -inf *)
| NaN.

Definition Qltb (a b : Q) : bool := negb (Qle_bool b a).

Definition of_Z (z : Z) : f64 := Fin (inject_Z z).
Definition of_nat (n : nat) : f64 := of_Z (Z.of_nat n).

Definition isnan (x : f64) : bool :=
  match x with NaN => true | _ => false end.

Definition isfinite (x : f64) : bool :=
  match x with Fin _ => true | _ => false end.

(** [a < b] on floats; every comparison with [nan] is false. *)
Definition ltb (a b : f64) : bool :=
  match a, b with
  | NaN, _ | _, NaN => false
  | Fin x, Fin y => Qltb x y
  | NInf, NInf => false
  | NInf, _ => true
  | _, NInf => false
  | PInf, _ => false
  | Fin _, PInf => true
  end.

Definition gtb (a b : f64) : bool := ltb b a.

Definition abs (x : f64) : f64 :=
  match x with
  | Fin q => Fin (Qabs q)
  | PInf | NInf => PInf
  | NaN => NaN
  end.

(** Float division of two finite operands.  numpy does not raise on a zero
    divisor: it yields [inf], [-inf] or, for [0/0], [nan]. *)
Definition div (a b : Q) : f64 :=
  if Qeq_bool b 0 then
    (if Qeq_bool a 0 then NaN else if Qltb 0 a then PInf else NInf)
  else Fin (Qred (a / b)).

Definition mul (a : f64) (b : Q) : f64 :=
  match a with
  | Fin x => Fin (Qred (x * b))
  | PInf => if Qltb 0 b then PInf else if Qltb b 0 then NInf else NaN
  | NInf => if Qltb 0 b then NInf else if Qltb b 0 then PInf else NaN
  | NaN => NaN
  end.

(** [rint]: round to the nearest integer, halves to the even neighbour. *)
Definition rint (q : Q) : Z :=
  let n := Qfloor q in
  let r := (q - inject_Z n)%Q in
  if Qltb r (1 # 2) then n
  else if Qltb (1 # 2) r then n + 1
  else if Z.even n then n else n + 1.

(** [round(x, 2)] as numpy computes it: [rint(x * 100) / 100]. *)
Definition round2 (x : f64) : f64 :=
  match x with
  | Fin q => Fin (Qred (inject_Z (rint (q * 100)) / 100))
  | _ => x
  end.

End F64.
Export F64.

(* ================================================================== *)
(** ** Output: what [print] writes

  A printed line is kept as the fixed text of its f-string together with
  the interpolated values; format specifiers ([:.2f], [:,]) only decide how
  a value is rendered and are not modelled.  A method is a computation that
  appends lines and either returns or raises: lines printed before an
  exception stay printed. *)

Module IO.

Inductive value : Type :=
| VStr (s : string)
| VInt (z : Z)
| VNum (x : f64).

Definition line : Type := (string * list value)%type.

Definition IO (A : Type) : Type := (list line * result A)%type.

Definition ret {A} (a : A) : IO A := ([], Ok a).

Definition bind {A B} (m : IO A) (f : A -> IO B) : IO B :=
  match m with
  | (o, Ok a) => let (o', r) := f a in ((o ++ o')%list, r)
  | (o, Raise e) => (o, Raise e)
  end.

Definition print (text : string) (vals : list value) : IO unit :=
  ([(text, vals)], Ok tt).

(** Evaluating an expression that may raise, inside a method. *)
Definition eval {A} (r : result A) : IO A := ([], r).

Definition output {A} (m : IO A) : list line := fst m.
Definition outcome {A} (m : IO A) : result A := snd m.

(** [for x in xs: body x] *)
Fixpoint for_each {A} (xs : list A) (body : A -> IO unit) : IO unit :=
  match xs with
  | [] => ret tt
  | x :: t => bind (body x) (fun _ => for_each t body)
  end.

End IO.
Export IO.

Notation "x <- m ;; k" := (bind m (fun x => k))
(at level 61, m at next level, right associativity).
Notation "m ;; k" := (bind m (fun _ => k))
(at level 61, right associativity).

(** [a / b] on two Python ints: true division, raising on a zero divisor. *)
Definition py_truediv (a b : Z) : result f64 :=
if b =? 0 then Raise ZeroDivisionError
else Ok (F64.div (inject_Z a) (inject_Z b)).

(* ================================================================== *)
(** ** pandas *)

Module pd.

(** A series is a list of labelled values; a column of the frame is
    labelled by row position (the default [RangeIndex]). *)
Definition Series (L : Type) : Type := list (L * f64).

Fixpoint enumerate_from {A} (i : nat) (l : list A) : list (nat * A) :=
  match l with
  | [] => []
  | x :: t => (i, x) :: enumerate_from (S i) t
  end.

Definition enumerate {A} (l : list A) : list (nat * A) := enumerate_from 0 l.

Definition of_ints (l : list Z) : list Q := map inject_Z l.

(** *** Reductions ([skipna=True]; the columns reduced here hold finite
    values, so only the empty case differs from plain arithmetic) *)

Definition Qsum (l : list Q) : Q := fold_right Qplus 0%Q l.

Definition Zsum (l : list Z) : Z := fold_right Z.add 0 l.

Definition len {A} (l : list A) : Z := Z.of_nat (List.length l).

(** [Series.mean()]: [nan] on an empty series. *)
Definition mean (l : list Q) : f64 :=
  match l with
  | [] => NaN
  | _ => Fin (Qred (Qsum l / inject_Z (len l)))
  end.

(** [Series.min()] / [Series.max()]: [nan] on an empty series. *)
Definition min (l : list Q) : f64 :=
  match l with
  | [] => NaN
  | x :: t => Fin (fold_left (fun m y => if Qltb y m then y else m) t x)
  end.

Definition max (l : list Q) : f64 :=
  match l with
  | [] => NaN
  | x :: t => Fin (fold_left (fun m y => if Qltb m y then y else m) t x)
  end.

Fixpoint Qinsert (x : Q) (l : list Q) : list Q :=
  match l with
  | [] => [x]
  | y :: t => if Qle_bool x y then x :: l else y :: Qinsert x t
  end.

Definition Qsort (l : list Q) : list Q := fold_right Qinsert [] l.

(** [Series.median()]: the middle of the sorted values, or the mean of the
    two middle ones; [nan] on an empty series. *)
Definition median (l : list Q) : f64 :=
  let s := Qsort l in
  let n := List.length s in
  match n with
  | O => NaN
  | _ =>
      if Nat.even n
      then Fin (Qred ((nth (n / 2 - 1) s 0%Q + nth (n / 2) s 0%Q) / 2))
      else Fin (Qred (nth (n / 2) s 0%Q))
  end.

(** *** [idxmax]

    The label of the first occurrence of the maximum, [nan] entries
    skipped.  On an empty series pandas raises [ValueError]; on a series
    with nothing but [nan] pandas 3 raises [ValueError] as well (pandas 2
    answers [nan], on which the following [.loc] raises [KeyError]). *)
Fixpoint first_max {L} (s : Series L) : option (L * f64) :=
  match s with
  | [] => None
  | (l, x) :: t =>
      if isnan x then first_max t
      else match first_max t with
           | Some (l', y) => if F64.ltb x y then Some (l', y) else Some (l, x)
           | None => Some (l, x)
           end
  end.

Definition idxmax {L} (s : Series L) : result L :=
  match first_max s with
  | Some (l, _) => Ok l
  | None => Raise ValueError
  end.

(** [df.loc[i]] on a frame with the default index. *)
Definition loc {A} (df : list A) (i : nat) : result A :=
  match nth_error df i with
  | Some r => Ok r
  | None => Raise KeyError
  end.

(** [s[0]] on a series with the default index. *)
Definition getitem0 {A} (s : list A) : result A :=
  match s with
  | x :: _ => Ok x
  | [] => Raise KeyError
  end.

(** *** [pd.cut(x, bins, labels)] with the default [right=True],
    [include_lowest=False]: bin [i] is the interval [(bins[i], bins[i+1]]];
    a value in no bin is missing ([NaN], here [None]). *)
Fixpoint cut {L} (x : Q) (bins : list Q) (labels : list L) : option L :=
  match bins, labels with
  | lo :: ((hi :: _) as rest), lab :: labs =>
      if Qltb lo x && Qle_bool x hi then Some lab else cut x rest labs
  | _, _ => None
  end.

(** *** Distinct values *)

(** [Series.unique()]: distinct values in order of first appearance. *)
Fixpoint unique (l : list string) : list string :=
  match l with
  | [] => []
  | x :: t => x :: filter (fun y => negb (y =? x)%string) (unique t)
  end.

Definition count (k : string) (l : list string) : nat :=
  List.length (filter (fun y => (y =? k)%string) l).

(** Ascending order on Python strings: lexicographic by code point. *)
Fixpoint insert_key (k : string) (l : list string) : list string :=
  match l with
  | [] => [k]
  | y :: t => if String.leb k y then k :: l else y :: insert_key k t
  end.

Definition sort_keys (l : list string) : list string :=
  fold_right insert_key [] l.

(** *** Stable descending sort on a float key.

    [nan] keys sort last.  An element is placed before the first one that
    is not strictly greater, so among equal keys the earlier element of the
    input stays first. *)
Definition lt_nanlast (a b : f64) : bool :=
  match a, b with
  | NaN, NaN => false
  | NaN, _ => true
  | _, NaN => false
  | _, _ => F64.ltb a b
  end.

Section SortDesc.
Context {A : Type} (key : A -> f64).

Fixpoint insert_desc (x : A) (l : list A) : list A :=
  match l with
  | [] => [x]
  | y :: t =>
      if lt_nanlast (key x) (key y) then y :: insert_desc x t
      else x :: l
  end.

Definition sort_desc (l : list A) : list A := fold_right insert_desc [] l.
End SortDesc.

(** [Series.value_counts()]: one entry per distinct value, counted in order
    of first appearance, then sorted by count, largest first ([sort=True],
    a stable sort). *)
Definition value_counts (l : list string) : list (string * nat) :=
  sort_desc (fun e => F64.of_nat (snd e))
            (map (fun k => (k, count k l)) (unique l)).

(** [value_counts()] on a categorical column: one entry per category, also
    the unobserved ones; missing values are not counted.
    [.sort_index()] then orders the entries by category order. *)
Definition value_counts_categorical
    (categories : list string) (l : list (option string))
    : list (string * nat) :=
  map (fun c =>
         (c, List.length (filter (fun v => match v with
                                      | Some s => (s =? c)%string
                                      | None => false
                                      end) l)))
      categories.

(** [DataFrame.groupby(by)] with the default [sort=True]: one group per
    distinct key, the groups ordered by ascending key, each holding its
    rows in frame order. *)
Definition groupby {R} (by_ : R -> string) (df : list R)
    : list (string * list R) :=
  map (fun k => (k, filter (fun r => (by_ r =? k)%string) df))
      (sort_keys (unique (map by_ df))).

(** [DataFrame.nlargest(n, column)] with the default [keep='first']: the
    first [n] rows of the frame sorted by the column, largest first, rows
    keeping their index labels. *)
Definition nlargest {R} (n : nat) (column : R -> f64) (df : list R)
    : list (nat * R) :=
  firstn n (sort_desc (fun e => column (snd e)) (enumerate df)).

(** [Series.mode()]: the values of highest count, in ascending order. *)
Definition mode (l : list string) : list string :=
  let ks := sort_keys (unique l) in
  let m := fold_right Nat.max O (map (fun k => count k l) ks) in
  filter (fun k => Nat.eqb (count k l) m) ks.

(** [Series.isin(values)] at one entry. *)
Definition isin (x : string) (values : list string) : bool :=
  existsb (fun v => (x =? v)%string) values.

End pd.

(* ================================================================== *)
(** ** The analyzer *)

Module SephoraAnalyzer.

Import pd.

(** One row of the literal table. *)
Record Product : Type := {
  product_name : string;
  brand : string;
  category : string;
  price : Z;
  rating : Q;
  num_reviews : Z
}.

(** A row of the frame once the derived columns are added. *)
Record Row : Type := {
  base :> Product;
  value_score : f64;
  price_range : option string
}.

(** *** The literal columns of [create_sample_data] *)

Definition product_name_column : list string := [
  "Fenty Beauty Foundation"; "Fenty Beauty Lipgloss"; "Fenty Beauty Highlighter";
  "Rare Beauty Blush"; "Rare Beauty Concealer"; "Charlotte Tilbury Mascara";
  "Charlotte Tilbury Foundation"; "Dior Lipstick"; "Dior Foundation";
  "The Ordinary Serum"; "The Ordinary Moisturizer"; "The Ordinary Retinol";
  "Drunk Elephant Moisturizer"; "Urban Decay Eyeshadow"; "Urban Decay Primer";
  "Huda Beauty Palette"; "Huda Beauty Lipstick"; "MAC Lipstick";
  "MAC Foundation"; "MAC Powder"; "NARS Blush"; "NARS Concealer";
  "Too Faced Primer"; "Too Faced Mascara"; "Benefit Brow Pencil";
  "Tarte Concealer"; "Tarte Foundation"; "Anastasia Brow Gel";
  "Anastasia Palette"; "La Mer Cream"; "Tatcha Cleanser";
  "YSL Lipstick"; "Clinique Moisturizer"; "Hourglass Foundation";
  "Pat McGrath Lipstick"; "Laura Mercier Powder"; "Bobbi Brown Concealer";
  "Tom Ford Lipstick"; "Estee Lauder Serum"; "NARS Lipstick"
].

Definition brand_column : list string := [
  "Fenty Beauty"; "Fenty Beauty"; "Fenty Beauty";
  "Rare Beauty"; "Rare Beauty"; "Charlotte Tilbury";
  "Charlotte Tilbury"; "Dior"; "Dior";
  "The Ordinary"; "The Ordinary"; "The Ordinary";
  "Drunk Elephant"; "Urban Decay"; "Urban Decay";
  "Huda Beauty"; "Huda Beauty"; "MAC";
  "MAC"; "MAC"; "NARS"; "NARS";
  "Too Faced"; "Too Faced"; "Benefit";
  "Tarte"; "Tarte"; "Anastasia";
  "Anastasia"; "La Mer"; "Tatcha";
  "YSL"; "Clinique"; "Hourglass";
  "Pat McGrath"; "Laura Mercier"; "Bobbi Brown";
  "Tom Ford"; "Estee Lauder"; "NARS"
].

Definition category_column : list string := [
  "Face"; "Lips"; "Face";
  "Face"; "Face"; "Eyes"; "Face"; "Lips"; "Face";
  "Skincare"; "Skincare"; "Skincare";
  "Skincare"; "Eyes"; "Face";
  "Eyes"; "Lips"; "Lips";
  "Face"; "Face"; "Face"; "Face";
  "Face"; "Eyes"; "Eyes";
  "Face"; "Face"; "Eyes";
  "Eyes"; "Skincare"; "Skincare";
  "Lips"; "Skincare"; "Face";
  "Lips"; "Face"; "Face";
  "Lips"; "Skincare"; "Lips"
].

Definition price_column : list Z := [
  38; 20; 32; 23; 27; 29; 44; 42; 52;
  7; 9; 12; 68; 54; 35; 67; 29; 20;
  39; 32; 32; 31; 34; 26; 24;
  29; 41; 23; 49; 185; 35;
  39; 31; 49; 40; 41; 32; 57; 78; 28
].

Definition rating_column : list Q := [
  4.5; 4.4; 4.6; 4.7; 4.5; 4.3; 4.5; 4.6; 4.4;
  4.4; 4.3; 4.5; 4.2; 4.5; 4.4; 4.8; 4.3; 4.4;
  4.5; 4.4; 4.6; 4.5; 4.3; 4.4; 4.5;
  4.4; 4.5; 4.7; 4.6; 4.1; 4.5;
  4.5; 4.3; 4.6; 4.4; 4.5; 4.5; 4.3; 4.2; 4.6
]%Q.

Definition num_reviews_column : list Z := [
  15234; 9845; 7651; 8901; 6234; 6543; 8932; 4231; 5678;
  12045; 8934; 9123; 5678; 9876; 7234; 11234; 5432; 7890;
  10234; 6543; 6789; 7456; 5432; 6789; 8765;
  9012; 7890; 10123; 8456; 3456; 7654;
  5678; 6543; 8901; 7234; 6543; 7890; 4567; 5678; 5234
].

(** [pd.DataFrame(products)]: row [i] takes entry [i] of every column.  The
    constructor needs columns of one length (see [columns_same_length]). *)
Fixpoint DataFrame (names brands categories : list string) (prices : list Z)
    (ratings : list Q) (reviews : list Z) : list Product :=
  match names, brands, categories, prices, ratings, reviews with
  | n :: ns, b :: bs, c :: cs, p :: ps, r :: rs, v :: vs =>
      {| product_name := n; brand := b; category := c;
         price := p; rating := r; num_reviews := v |}
        :: DataFrame ns bs cs ps rs vs
  | _, _, _, _, _, _ => []
  end.

(** [df['rating'] / (df['price'] / 10)] at one row: both divisions are float
    divisions, the inner one of an integer by the constant 10. *)
Definition value_score_of (p : Product) : f64 :=
  F64.div (rating p) (inject_Z (price p) / 10).

Definition price_bins : list Q := [0; 20; 40; 70; 200]%Q.
Definition price_labels : list string :=
  ["Budget"; "Mid-Range"; "Premium"; "Luxury"].

(** [pd.cut(df['price'], bins=[0, 20, 40, 70, 200], labels=[...])] at one
    row. *)
Definition price_range_of (p : Product) : option string :=
  cut (inject_Z (price p)) price_bins price_labels.

Definition add_derived_columns (p : Product) : Row :=
  {| base := p;
     value_score := value_score_of p;
     price_range := price_range_of p |}.

Definition create_sample_data : list Row :=
  map add_derived_columns
      (DataFrame product_name_column brand_column category_column
                 price_column rating_column num_reviews_column).

(** *** Columns of the frame *)

Definition prices (data : list Row) : list Q := of_ints (map (fun r : Row => price r) data).
Definition ratings (data : list Row) : list Q := map (fun r : Row => rating r) data.
Definition reviews (data : list Row) : list Z := map (fun r : Row => num_reviews r) data.
Definition categories (data : list Row) : list string :=
  map (fun r : Row => category r) data.

Definition price_series (data : list Row) : Series nat :=
  enumerate (map (fun r : Row => F64.of_Z (price r)) data).
Definition value_score_series (data : list Row) : Series nat :=
  enumerate (map value_score data).

Definition rule (c : string) : string := concat "" (repeat c 70).

(** *** [summary_statistics] *)

Definition summary_statistics (data : list Row) : IO unit :=
  print (rule "=") [] ;;
  print "SEPHORA PRODUCT ANALYSIS - SUMMARY STATISTICS" [] ;;
  print (rule "=") [] ;;
  print "Total Products Analyzed:" [VInt (len data)] ;;
  print "Price Statistics:" [] ;;
  print "Average Price:" [VNum (mean (prices data))] ;;
  print "Median Price:" [VNum (median (prices data))] ;;
  print "Price Range:" [VNum (min (prices data)); VNum (max (prices data))] ;;
  print "Rating Statistics:" [] ;;
  print "Average Rating:" [VNum (mean (ratings data))] ;;
  print "Median Rating:" [VNum (median (ratings data))] ;;
  print "Rating Range:" [VNum (min (ratings data)); VNum (max (ratings data))] ;;
  print "Review Statistics:" [] ;;
  print "Total Reviews:" [VInt (Zsum (reviews data))] ;;
  print "Average Reviews per Product:" [VNum (mean (of_ints (reviews data)))] ;;
  i <- eval (idxmax (price_series data)) ;;
  most_expensive <- eval (loc data i) ;;
  j <- eval (idxmax (value_score_series data)) ;;
  best_value <- eval (loc data j) ;;
  print "Most Expensive Product:" [] ;;
  print "most_expensive:"
        [VStr (product_name most_expensive); VInt (price most_expensive)] ;;
  print "Best Value Product:" [] ;;
  print "best_value:"
        [VStr (product_name best_value); VInt (price best_value);
         VNum (Fin (rating best_value))].

(** *** [category_analysis] *)

(** One row of [groupby('category').agg({...}).round(2)]: price count, mean,
    min and max, rating mean, review sum.  Rounding changes the two means
    only; the other columns hold integers. *)
Definition category_stats_row (g : string * list Row) : line :=
  let rows := snd g in
  (fst g,
   [VInt (len rows);
    VNum (round2 (mean (prices rows)));
    VNum (min (prices rows));
    VNum (max (prices rows));
    VNum (round2 (mean (ratings rows)));
    VInt (Zsum (reviews rows))]).

Definition category_stats (data : list Row) : list line :=
  map category_stats_row (groupby (fun r : Row => category r) data).

(** [self.data['category'].value_counts()] as a series. *)
Definition category_counts (data : list Row) : Series string :=
  map (fun e => (fst e, F64.of_nat (snd e))) (value_counts (categories data)).

(** [Series.max()] of a float series: [nan] entries skipped. *)
Definition series_max {L} (s : Series L) : f64 :=
  match first_max s with
  | Some (_, x) => x
  | None => NaN
  end.

Section CategoryAnalysis.

(** [Series.mean()] of the ratings of one group, in float64.  Ratings such
    as 4.7 are not binary fractions, so the float mean is rounded: the means
    of two groups that agree as exact numbers can differ in the last bit (one
    row rated 4.8 against two rows rated 4.7 and 4.9), and which group
    [idxmax] then picks depends on the rounded values.  The method is
    therefore read for any mean function; [pd.mean] is the exact one. *)
Variable rating_mean : list Q -> f64.

(** [self.data.groupby('category')['rating'].mean()] *)
Definition category_mean_rating (data : list Row) : Series string :=
  map (fun g => (fst g, rating_mean (ratings (snd g))))
      (groupby (fun r : Row => category r) data).

Definition category_analysis (data : list Row) : IO unit :=
  print (rule "-") [] ;;
  print "CATEGORY ANALYSIS" [] ;;
  print (rule "-") [] ;;
  print "Category Statistics:" [] ;;
  for_each (category_stats data) (fun l => print (fst l) (snd l)) ;;
  most_products <- eval (idxmax (category_counts data)) ;;
  print "Most Products:"
        [VStr most_products; VNum (series_max (category_counts data))] ;;
  highest_rated <- eval (idxmax (category_mean_rating data)) ;;
  print "Highest Rated:"
        [VStr highest_rated; VNum (series_max (category_mean_rating data))].

End CategoryAnalysis.

(** *** [top_products] *)

Definition top_rated (data : list Row) : list (nat * Row) :=
  nlargest 5 (fun r : Row => Fin (rating r)) data.

Definition most_reviewed (data : list Row) : list (nat * Row) :=
  nlargest 5 (fun r : Row => F64.of_Z (num_reviews r)) data.

Definition best_value_top (data : list Row) : list (nat * Row) :=
  nlargest 5 value_score data.

Definition top_products (data : list Row) : IO unit :=
  print (rule "-") [] ;;
  print "TOP PRODUCTS" [] ;;
  print (rule "-") [] ;;
  print "Top 5 Highest Rated Products:" [] ;;
  for_each (top_rated data) (fun e =>
    let row : Row := snd e in
    print "top_rated:" [VStr (product_name row); VStr (brand row);
                        VNum (Fin (rating row)); VInt (price row)]) ;;
  print "Top 5 Most Reviewed Products:" [] ;;
  for_each (most_reviewed data) (fun e =>
    let row : Row := snd e in
    print "most_reviewed:" [VStr (product_name row); VStr (brand row);
                            VInt (num_reviews row); VNum (Fin (rating row))]) ;;
  print "Top 5 Best Value Products:" [] ;;
  for_each (best_value_top data) (fun e =>
    let row : Row := snd e in
    print "best_value:" [VStr (product_name row); VInt (price row);
                         VNum (Fin (rating row))]).

(** *** [price_analysis] *)

(** [self.data['price_range'].value_counts().sort_index()] *)
Definition price_dist (data : list Row) : list (string * nat) :=
  value_counts_categorical price_labels (map price_range data).

(** [(count / len(self.data)) * 100].  [count] comes out of [items()] as a
    Python int and [len] is one, so the division is the one of two ints: it
    raises on a catalog without rows. *)
Definition percentage (count : nat) (data : list Row) : result f64 :=
  match py_truediv (Z.of_nat count) (len data) with
  | Ok share => Ok (F64.mul share 100)
  | Raise e => Raise e
  end.

Definition weak_threshold : Q := 0.3%Q.

(** The branch on the correlation: one message below the threshold, nothing
    otherwise. *)
Definition correlation_verdict (correlation : f64) : IO unit :=
  if F64.ltb (F64.abs correlation) (Fin weak_threshold)
  then print "Weak correlation: Price doesn't strongly predict rating" []
  else ret tt.

Section PriceAnalysis.

(** [Series.corr]: Pearson's coefficient of two columns.  Its value needs a
    square root, so the coefficient is left to the numeric library; the
    method is read for any such function. *)
Variable corr : list Q -> list Q -> f64.

Definition price_analysis (data : list Row) : IO unit :=
  print (rule "-") [] ;;
  print "PRICE ANALYSIS" [] ;;
  print (rule "-") [] ;;
  print "Price Range Distribution:" [] ;;
  for_each (price_dist data) (fun e =>
    let range_name := fst e in
    let count := snd e in
    pct <- eval (percentage count data) ;;
    print range_name [VInt (Z.of_nat count); VNum pct]) ;;
  let correlation := corr (prices data) (ratings data) in
  print "Price-Rating Correlation:" [VNum correlation] ;;
  correlation_verdict correlation.

End PriceAnalysis.

(** *** [generate_insights] *)

Definition expensive (data : list Row) : list Row :=
  filter (fun r : Row => 50 <? price r) data.
Definition affordable (data : list Row) : list Row :=
  filter (fun r : Row => price r <=? 30) data.
Definition skincare (data : list Row) : list Row :=
  filter (fun r : Row => (category r =? "Skincare")%string) data.
Definition makeup_categories : list string := ["Face"; "Eyes"; "Lips"].
Definition makeup (data : list Row) : list Row :=
  filter (fun r : Row => isin (category r) makeup_categories) data.
Definition sweet_spot (data : list Row) : list Row :=
  filter (fun r : Row => (20 <=? price r) && (price r <=? 40)) data.
Definition high_rated (data : list Row) : list Row :=
  filter (fun r : Row => Qle_bool 4.5 (rating r)) data.

Definition generate_insights (data : list Row) : IO unit :=
  print (rule "=") [] ;;
  print "KEY BUSINESS INSIGHTS" [] ;;
  print (rule "=") [] ;;
  let expensive_avg_rating := mean (ratings (expensive data)) in
  let affordable_avg_rating := mean (ratings (affordable data)) in
  print "1. PRICE-QUALITY RELATIONSHIP:" [] ;;
  print "Expensive products (>$50):" [VNum expensive_avg_rating] ;;
  print "Affordable products (<=$30):" [VNum affordable_avg_rating] ;;
  print "Higher price does NOT guarantee higher ratings" [] ;;
  let skincare_avg := mean (prices (skincare data)) in
  let makeup_avg := mean (prices (makeup data)) in
  print "2. CATEGORY PRICING:" [] ;;
  print "Skincare average:" [VNum skincare_avg] ;;
  print "Makeup average:" [VNum makeup_avg] ;;
  print "products command higher prices"
        [VStr (if F64.gtb skincare_avg makeup_avg then "Skincare" else "Makeup")] ;;
  print "3. OPTIMAL PRICE RANGE ($20-$40):" [] ;;
  share <- eval (py_truediv (len (sweet_spot data)) (len data)) ;;
  print "Products in range:" [VInt (len (sweet_spot data)); VNum (F64.mul share 100)] ;;
  print "Average rating:" [VNum (mean (ratings (sweet_spot data)))] ;;
  print "Best balance of quality and value" [] ;;
  print "4. HIGH-RATED PRODUCTS (>=4.5 stars):" [] ;;
  print "Count:" [VInt (len (high_rated data))] ;;
  print "Average price:" [VNum (mean (prices (high_rated data)))] ;;
  most_common <- eval (getitem0 (mode (categories (high_rated data)))) ;;
  print "Most common category:" [VStr most_common].

(** *** [visualize_data]: the data handed to the plotting calls *)

(** [category_prices =
     self.data.groupby('category')['price'].mean().sort_values(ascending=False)]:
    the bars of the first chart. *)
Definition category_prices (data : list Row) : Series string :=
  sort_desc snd
            (map (fun g => (fst g, mean (prices (snd g))))
                 (groupby (fun r : Row => category r) data)).

(** The scatter plot: [categories = self.data['category'].unique()], then
    for each [i, category in enumerate(categories)] the rows
    [self.data[self.data['category'] == category]], drawn in [colors[i]]. *)
Definition scatter_groups (data : list Row) : list (nat * (string * list Row)) :=
  map (fun e =>
         (fst e,
          (snd e,
           filter (fun r : Row => (category r =? snd e)%string) data)))
      (enumerate (unique (categories data))).

(** The palette of the scatter plot has [len(categories)] colours. *)
Definition palette_size (data : list Row) : nat :=
  List.length (unique (categories data)).

(** [top_brands = self.data['brand'].value_counts().head(10)] *)
Definition top_brands (data : list Row) : list (string * nat) :=
  firstn 10 (value_counts (map (fun r : Row => brand r) data)).

End SephoraAnalyzer.

(* ================================================================== *)
(** * Vocabulary of the properties *)

Import pd SephoraAnalyzer.

(** In a list of labelled rows sorted on [key], [a] may stand before [b]:
    its key is not smaller, and on equal keys its label is. *)
Definition ranked {R} (key : nat * R -> f64) (a b : nat * R) : Prop :=
  lt_nanlast (key a) (key b) = false /\
  (lt_nanlast (key b) (key a) = false -> (fst a < fst b)%nat).




(** A cheap, middling product: price 10, rating 4.0. *)
Definition budget_balm : Product :=
  {| product_name := "Budget Balm"; brand := "Acme"; category := "Lips";
     price := 10; rating := 4.0; num_reviews := 12 |}.


(** No printed line of a run carries an undefined number. *)
Definition no_nan_printed {A} (m : IO A) : Prop :=
  forall text vals, In (text, vals) (output m) -> ~ In (VNum NaN) vals.

(** The tolerance the specification asks of [generate_insights]: the run
    ends without an exception and reports no undefined number. *)
Definition insights_tolerate_empty_subsets (data : list Row) : Prop :=
  outcome (generate_insights data) = Ok tt /\
  no_nan_printed (generate_insights data).

(** What the specification asks of the aggregates of [summary_statistics]
    over the rows of an empty catalog: none is reported as undefined. *)
Definition summary_rejects_empty_catalog : Prop :=
  no_nan_printed (summary_statistics []).

(** A face product of the same rating as [budget_balm]. *)
Definition face_cream : Product :=
  {| product_name := "Face Cream"; brand := "Acme"; category := "Face";
     price := 30; rating := 4.0; num_reviews := 7 |}.

(** A catalog whose first category is not the alphabetically first. *)
Definition lips_then_face : list Row :=
  map add_derived_columns [budget_balm; face_cream].

(** The mean rating of one category, as [rating_mean] computes it. *)
Definition mean_rating_of (rating_mean : list Q -> f64) (data : list Row)
    (c : string) : f64 :=
  rating_mean
    (ratings (filter (fun r : Row => (category r =? c)%string) data)).

(** The grouping order the specification asks for: categories as they first
    appear in the catalog. *)
Definition groups_in_first_appearance_order (data : list Row) : Prop :=
  map fst (category_stats data) = unique (categories data).

(** [x] is the number [d] to two decimals. *)
Definition approx (x : f64) (d : Q) : Prop :=
  exists q, x = Fin q /\ (Qabs (q - d) <= 0.005)%Q.

(** A run prints the line [text] with the values [vals]. *)
Definition reported {A} (m : IO A) (text : string) (vals : list value) : Prop :=
  In (text, vals) (output m).

(** The end-to-end scenario as the specification words it. *)
Definition summary_as_specified : Prop :=
  exists p r,
    reported (summary_statistics create_sample_data)
             "Average Price:" [VNum p] /\
    approx p 38.97 /\
    reported (summary_statistics create_sample_data)
             "Average Rating:" [VNum r] /\
    approx r 4.46 /\
    reported (summary_statistics create_sample_data)
             "best_value:" [VStr "The Ordinary Serum"; VInt 7; VNum (Fin 4.4)].

(** A cheap product with a high rating: price 10, rating 4.7. *)
Definition rated_balm : Product :=
  {| product_name := "Rated Balm"; brand := "Acme"; category := "Lips";
     price := 10; rating := 4.7; num_reviews := 30 |}.

(** A catalog with that product alone: nothing in it costs more than $50,
    nothing is skincare, nothing costs between $20 and $40. *)
Definition rated_only : list Row := [add_derived_columns rated_balm].

(** A run prints, under [text], the mean of [values]: [nan] when there are
    none, and otherwise the number that, times their count, gives their
    sum. *)
Definition prints_mean_of {A} (m : IO A) (text : string) (values : list Q)
    : Prop :=
  exists e,
    reported m text [VNum e] /\
    (values = [] -> e = NaN) /\
    (values <> [] ->
     exists q, e = Fin q /\ (q * inject_Z (len values) == Qsum values)%Q).

(** The price lies in one of the bins of [price_bins]. *)
Definition in_some_bin (p : Product) : bool :=
  (0 <? price p) && (price p <=? 200).

(** The price count printed in one row of the category table. *)
Definition row_count (l : line) : Z :=
  match snd l with
  | VInt n :: _ => n
  | _ => 0
  end.

(* ================================================================== *)
(** * Properties *)

(** ** Comparisons *)

Lemma Qltb_lt a b : Qltb a b = true <-> (a < b)%Q.
Proof.
  unfold Qltb. rewrite negb_true_iff. split; intro H.
  - apply Qnot_le_lt. intro L. apply Qle_bool_iff in L. congruence.
  - destruct (Qle_bool b a) eqn:E; [|reflexivity].
    apply Qle_bool_iff in E. exfalso. revert E. apply Qlt_not_le, H.
Qed.

Lemma Qltb_ge a b : Qltb a b = false <-> (b <= a)%Q.
Proof.
  unfold Qltb. rewrite negb_false_iff. apply Qle_bool_iff.
Qed.

Lemma Qle_bool_inject (a b : Z) :
  Qle_bool (inject_Z a) (inject_Z b) = (a <=? b).
Proof.
  unfold Qle_bool, inject_Z. simpl. now rewrite !Z.mul_1_r.
Qed.

Lemma Qltb_inject (a b : Z) : Qltb (inject_Z a) (inject_Z b) = (a <? b).
Proof.
  unfold Qltb. rewrite Qle_bool_inject, Z.ltb_antisym. reflexivity.
Qed.

Lemma lt_nanlast_asym a b : lt_nanlast a b = true -> lt_nanlast b a = false.
Proof.
  destruct a, b; simpl; try congruence.
  rewrite Qltb_lt, Qltb_ge. apply Qlt_le_weak.
Qed.

Lemma lt_nanlast_negtrans a b c :
  lt_nanlast a b = false -> lt_nanlast b c = false -> lt_nanlast a c = false.
Proof.
  destruct a, b, c; simpl; try congruence.
  rewrite !Qltb_ge. intros H1 H2. eapply Qle_trans; eauto.
Qed.


(** ** The stable descending sort *)

Lemma In_enumerate_from {A} (i k : nat) (x : A) l :
  In (i, x) (enumerate_from k l) ->
  (k <= i)%nat /\ nth_error l (i - k) = Some x.
Proof.
  revert k. induction l as [|y l IH]; intros k; simpl; [tauto|].
  intros [E|H].
  - inversion E; subst. rewrite Nat.sub_diag. auto.
  - apply IH in H. destruct H as [Hk Hn]. split; [lia|].
    replace (i - k)%nat with (S (i - S k)) by lia. exact Hn.
Qed.

Lemma length_enumerate_from {A} k (l : list A) :
  List.length (enumerate_from k l) = List.length l.
Proof.
  revert k. induction l; intros; simpl; auto.
Qed.

Section SortDescFacts.

Context {R : Type} (key : nat * R -> f64).

Lemma In_insert_desc x y l :
  In y (insert_desc key x l) <-> y = x \/ In y l.
Proof.
  induction l as [|z l IH]; simpl.
  - intuition.
  - destruct (lt_nanlast (key x) (key z)); simpl; rewrite ?IH; intuition.
Qed.

Lemma In_sort_desc y l : In y (sort_desc key l) <-> In y l.
Proof.
  induction l as [|z l IH]; simpl; [tauto|].
  rewrite In_insert_desc, IH. intuition.
Qed.

Lemma length_insert_desc x l :
  List.length (insert_desc key x l) = S (List.length l).
Proof.
  induction l as [|z l IH]; simpl; [reflexivity|].
  destruct (lt_nanlast (key x) (key z)); simpl; congruence.
Qed.

Lemma length_sort_desc l : List.length (sort_desc key l) = List.length l.
Proof.
  induction l as [|z l IH]; simpl; [reflexivity|].
  now rewrite length_insert_desc, IH.
Qed.

Lemma insert_desc_ranked x l :
  StronglySorted (ranked key) l ->
  Forall (fun y => (fst x < fst y)%nat) l ->
  StronglySorted (ranked key) (insert_desc key x l).
Proof.
  induction 1 as [|z l Hs IH Hz]; intros Hx; simpl.
  - repeat constructor.
  - inversion Hx as [|? ? Hxz Hxl]; subst.
    destruct (lt_nanlast (key x) (key z)) eqn:E.
    + constructor; [now apply IH|].
      apply Forall_forall. intros y Hy. apply In_insert_desc in Hy.
      destruct Hy as [->|Hy].
      * split; [now apply lt_nanlast_asym|]. congruence.
      * rewrite Forall_forall in Hz. now apply Hz.
    + constructor; [now constructor|].
      constructor; [split; [exact E|intros _; exact Hxz]|].
      rewrite Forall_forall in Hz, Hxl |- *. intros y Hy.
      split; [|intros _; now apply Hxl].
      eapply lt_nanlast_negtrans; [exact E|]. now apply Hz.
Qed.

Lemma sort_desc_enumerate_ranked k (l : list R) :
  StronglySorted (ranked key) (sort_desc key (enumerate_from k l)).
Proof.
  revert k. induction l as [|x l IH]; intros k; simpl.
  - constructor.
  - apply insert_desc_ranked; [apply IH|].
    apply Forall_forall. intros [i y] Hy. apply (proj1 (In_sort_desc _ _)) in Hy.
    apply In_enumerate_from in Hy. simpl. lia.
Qed.

End SortDescFacts.

Lemma In_firstn {A} n (l : list A) x : In x (firstn n l) -> In x l.
Proof.
  revert n. induction l as [|y l IH]; intros [|n]; simpl; try tauto.
  intros [E|H]; eauto.
Qed.

Lemma StronglySorted_firstn {A} (P : A -> A -> Prop) n l :
  StronglySorted P l -> StronglySorted P (firstn n l).
Proof.
  revert n. induction l as [|x l IH]; intros [|n] H; simpl; try constructor.
  - apply IH. now inversion H.
  - inversion H as [|? ? _ Hx]; subst.
    rewrite Forall_forall in Hx |- *. intros y Hy.
    apply Hx. eapply In_firstn; eauto.
Qed.

Lemma StronglySorted_weaken {A} (P Q : A -> A -> Prop) l :
  (forall a b, P a b -> Q a b) -> StronglySorted P l -> StronglySorted Q l.
Proof.
  intros HPQ. induction 1 as [|x l Hs IH Hx]; constructor; auto.
  eapply Forall_impl; [|exact Hx]. auto.
Qed.

Lemma nlargest_ranked {R} n (column : R -> f64) (df : list R) :
  StronglySorted (ranked (fun e => column (snd e))) (nlargest n column df).
Proof.
  unfold nlargest, enumerate.
  apply StronglySorted_firstn, sort_desc_enumerate_ranked.
Qed.

Lemma nlargest_length {R} n (column : R -> f64) (df : list R) :
  List.length (nlargest n column df) = Nat.min n (List.length df).
Proof.
  unfold nlargest, enumerate.
  now rewrite length_firstn, length_sort_desc, length_enumerate_from.
Qed.

Lemma nlargest_rows {R} n (column : R -> f64) (df : list R) i row :
  In (i, row) (nlargest n column df) -> nth_error df i = Some row.
Proof.
  unfold nlargest, enumerate. intros H.
  apply In_firstn in H. apply (proj1 (In_sort_desc _ _ _)) in H.
  apply In_enumerate_from in H. now rewrite Nat.sub_0_r in H.
Qed.

Lemma nth_error_enumerate_from {A} k (l : list A) j x :
  nth_error l j = Some x -> In ((k + j)%nat, x) (enumerate_from k l).
Proof.
  revert k j. induction l as [|y l IH]; intros k [|j]; simpl; try discriminate.
  - intros E. inversion E; subst. left. f_equal. lia.
  - intros E. right. replace (k + S j)%nat with (S k + j)%nat by lia.
    now apply IH.
Qed.

Lemma StronglySorted_split {A} (P : A -> A -> Prop) n l a b :
  StronglySorted P l -> In a (firstn n l) -> In b (skipn n l) -> P a b.
Proof.
  revert n. induction l as [|x l IH]; intros [|n] Hs; simpl; try tauto.
  inversion Hs as [|? ? Hs' Hx]; subst. intros [->|Ha] Hb.
  - rewrite Forall_forall in Hx. apply Hx.
    rewrite <- (firstn_skipn n l). apply in_or_app. now right.
  - eapply IH; eauto.
Qed.

Lemma nlargest_dominates {R} n (column : R -> f64) (df : list R) j row e :
  nth_error df j = Some row ->
  ~ In (j, row) (nlargest n column df) ->
  In e (nlargest n column df) ->
  lt_nanlast (column (snd e)) (column row) = false.
Proof.
  unfold nlargest, enumerate. intros Hj Hout He.
  set (s := sort_desc (fun e => column (snd e)) (enumerate_from 0 df)) in *.
  assert (Hin : In (j, row) s).
  { apply In_sort_desc. now apply (nth_error_enumerate_from 0). }
  rewrite <- (firstn_skipn n s) in Hin. apply in_app_or in Hin.
  destruct Hin as [Hin|Hin]; [contradiction|].
  pose proof (sort_desc_enumerate_ranked (fun e => column (snd e)) 0 df) as Hs.
  exact (proj1 (StronglySorted_split _ n s e (j, row) Hs He Hin)).
Qed.

(** ** Claim C8: the five highest rated products *)

(** C8.  The rows listed under "Top 5 Highest Rated Products" number
    [min 5 (len data)]; their ratings never increase down the list; of two
    listed rows with the same rating the one that stands earlier in the
    catalog is listed first; every listed row is the catalog row of its
    label, and no row left out has a higher rating than a listed one. *)
Theorem top_rated_stable_descending (data : list Row) :
  List.length (top_rated data) = Nat.min 5 (List.length data) /\
  StronglySorted
    (fun a b : nat * Row => (rating (snd b) <= rating (snd a))%Q)
    (top_rated data) /\
  StronglySorted
    (fun a b : nat * Row =>
       (rating (snd a) == rating (snd b))%Q -> (fst a < fst b)%nat)
    (top_rated data) /\
  (forall i row, In (i, row) (top_rated data) -> nth_error data i = Some row) /\
  (forall j row e,
      nth_error data j = Some row -> ~ In (j, row) (top_rated data) ->
      In e (top_rated data) -> (rating row <= rating (snd e))%Q).
Proof.
  unfold top_rated. repeat split.
  - apply nlargest_length.
  - eapply StronglySorted_weaken; [|apply nlargest_ranked].
    intros a b [H _]. simpl in H. now apply Qltb_ge in H.
  - eapply StronglySorted_weaken; [|apply nlargest_ranked].
    intros a b [_ H] E. apply H. simpl. apply Qltb_ge.
    rewrite E. apply Qle_refl.
  - apply nlargest_rows.
  - intros j row e Hj Hout He.
    pose proof (nlargest_dominates 5 (fun r : Row => Fin (rating r))
                  data j row e Hj Hout He) as H.
    simpl in H. now apply Qltb_ge in H.
Qed.

(** ** Claim C2: the price buckets *)

Lemma price_range_of_eq (p : Product) :
  price_range_of p =
  if (0 <? price p) && (price p <=? 20) then Some "Budget"
  else if (20 <? price p) && (price p <=? 40) then Some "Mid-Range"
  else if (40 <? price p) && (price p <=? 70) then Some "Premium"
  else if (70 <? price p) && (price p <=? 200) then Some "Luxury"
  else None.
Proof.
  unfold price_range_of, price_bins, price_labels. cbn [cut].
  change 0%Q with (inject_Z 0). change 20%Q with (inject_Z 20).
  change 40%Q with (inject_Z 40). change 70%Q with (inject_Z 70).
  change 200%Q with (inject_Z 200).
  rewrite !Qltb_inject, !Qle_bool_inject.
  repeat match goal with |- context [if ?c then _ else _] => destruct c end;
    reflexivity.
Qed.

Lemma price_range_of_intervals (p : Product) :
  (price_range_of p = Some "Budget" <-> 0 < price p <= 20) /\
  (price_range_of p = Some "Mid-Range" <-> 20 < price p <= 40) /\
  (price_range_of p = Some "Premium" <-> 40 < price p <= 70) /\
  (price_range_of p = Some "Luxury" <-> 70 < price p <= 200) /\
  (price_range_of p = None <-> price p <= 0 \/ 200 < price p).
Proof.
  rewrite price_range_of_eq.
  destruct (Z.ltb_spec 0 (price p)), (Z.leb_spec (price p) 20),
    (Z.ltb_spec 20 (price p)), (Z.leb_spec (price p) 40),
    (Z.ltb_spec 40 (price p)), (Z.leb_spec (price p) 70),
    (Z.ltb_spec 70 (price p)), (Z.leb_spec (price p) 200);
    simpl; repeat split; intros; try discriminate; try lia.
Qed.

(** C2.  In every frame that [create_sample_data]'s derivation builds, the
    [price_range] column of a row is decided by right-closed intervals of
    the row's price: (0,20] is Budget, (20,40] Mid-Range, (40,70] Premium,
    (70,200] Luxury, and exactly the rows priced outside (0,200] hold no
    bucket (the missing value).  The edges 20, 40 and 70 fall in the lower
    bucket; 0 gets none. *)
Theorem price_range_intervals (ps : list Product) (r : Row) :
  In r (map add_derived_columns ps) ->
  (price_range r = Some "Budget" <-> 0 < price r <= 20) /\
  (price_range r = Some "Mid-Range" <-> 20 < price r <= 40) /\
  (price_range r = Some "Premium" <-> 40 < price r <= 70) /\
  (price_range r = Some "Luxury" <-> 70 < price r <= 200) /\
  (price_range r = None <-> price r <= 0 \/ 200 < price r).
Proof.
  intros Hr. apply in_map_iff in Hr. destruct Hr as [p [<- _]].
  cbn [price_range add_derived_columns base].
  apply price_range_of_intervals.
Qed.

(** C2 on the second row of the embedded catalog, "Fenty Beauty Lipgloss",
    whose price is the edge 20: its [price_range] is Budget. *)
Lemma price_range_intervals_witness :
  price_range
    (add_derived_columns
       {| product_name := "Fenty Beauty Lipgloss"; brand := "Fenty Beauty";
          category := "Lips"; price := 20; rating := 4.4;
          num_reviews := 9845 |}) = Some "Budget".
Proof.
  refine (proj2 (proj1 (price_range_intervals
                          (DataFrame product_name_column brand_column
                                     category_column price_column
                                     rating_column num_reviews_column)
                          (add_derived_columns
                             {| product_name := "Fenty Beauty Lipgloss";
                                brand := "Fenty Beauty";
                                category := "Lips"; price := 20;
                                rating := 4.4; num_reviews := 9845 |})
                          _)) _).
  - right. left. reflexivity.
  - simpl. lia.
Defined.

(** ** Claim C4: the verdict on the correlation *)



(** ** Runs: outcome and output of a sequence *)

Lemma outcome_bind {A B} (m : IO A) (f : A -> IO B) :
  outcome (bind m f) =
  match outcome m with
  | Ok a => outcome (f a)
  | Raise e => Raise e
  end.
Proof.
  destruct m as [o [a|e]]; simpl; [|reflexivity].
  now destruct (f a).
Qed.

Lemma output_bind {A B} (m : IO A) (f : A -> IO B) :
  output (bind m f) =
  (output m ++ match outcome m with
               | Ok a => output (f a)
               | Raise _ => []
               end)%list.
Proof.
  destruct m as [o [a|e]]; simpl.
  - now destruct (f a).
  - now rewrite app_nil_r.
Qed.

Lemma outcome_print text vals : outcome (print text vals) = Ok tt.
Proof. reflexivity. Qed.

Lemma output_print text vals : output (print text vals) = [(text, vals)].
Proof. reflexivity. Qed.

Lemma outcome_eval {A} (r : result A) : outcome (eval r) = r.
Proof. reflexivity. Qed.

Lemma output_eval {A} (r : result A) : output (eval r) = [].
Proof. reflexivity. Qed.

Ltac run :=
  repeat (rewrite ?outcome_bind, ?output_bind, ?outcome_print, ?output_print,
            ?outcome_eval, ?output_eval; cbn iota beta).

(** ** Claim C7: the value score *)




(** ** Means and modes of selections *)

Lemma mean_nan_iff (l : list Q) : mean l = NaN <-> l = [].
Proof.
  destruct l; simpl; split; intros H; try reflexivity; discriminate.
Qed.

Lemma ratings_nil (rows : list Row) : ratings rows = [] <-> rows = [].
Proof.
  destruct rows; simpl; split; intros H; try reflexivity; discriminate.
Qed.

Lemma prices_nil (rows : list Row) : prices rows = [] <-> rows = [].
Proof.
  destruct rows; simpl; split; intros H; try reflexivity; discriminate.
Qed.

Lemma In_insert_key k y l : In y (insert_key k l) <-> y = k \/ In y l.
Proof.
  induction l as [|z l IH]; simpl.
  - intuition.
  - destruct (String.leb k z); simpl; rewrite ?IH; intuition.
Qed.

Lemma In_sort_keys y l : In y (sort_keys l) <-> In y l.
Proof.
  induction l as [|z l IH]; simpl; [tauto|].
  rewrite In_insert_key, IH. intuition.
Qed.

Lemma In_unique y l : In y (unique l) <-> In y l.
Proof.
  induction l as [|x l IH]; simpl; [tauto|].
  rewrite filter_In, IH, negb_true_iff, String.eqb_neq.
  destruct (string_dec y x) as [->|N]; intuition.
Qed.

Lemma max_attained {A} (f : A -> nat) (l : list A) :
  l <> [] -> exists x, In x l /\ f x = fold_right Nat.max O (map f l).
Proof.
  induction l as [|x l IH]; [congruence|]. intros _.
  destruct l as [|y l].
  - exists x. simpl. split; [auto|lia].
  - destruct IH as [z [Hz Ez]]; [discriminate|].
    cbn [map fold_right] in *.
    destruct (Nat.max_spec (f x) (fold_right Nat.max O (f y :: map f l)))
      as [[_ E]|[_ E]]; cbn [fold_right] in E; rewrite E.
    + exists z. split; [now right|exact Ez].
    + exists x. split; [now left|reflexivity].
Qed.

Lemma mode_nonempty (l : list string) : l <> [] -> mode l <> [].
Proof.
  intros Hl. unfold mode.
  destruct (max_attained (fun k => count k l) (sort_keys (unique l)))
    as [k [Hk Ek]].
  - destruct l as [|x l]; [congruence|]. intros E.
    assert (H : In x (sort_keys (unique (x :: l)))).
    { apply In_sort_keys, In_unique. now left. }
    rewrite E in H. exact H.
  - intros E.
    assert (H : In k (filter
                        (fun k0 => Nat.eqb (count k0 l)
                           (fold_right Nat.max O
                              (map (fun k1 => count k1 l)
                                   (sort_keys (unique l)))))
                        (sort_keys (unique l)))).
    { apply filter_In. split; [exact Hk|]. now apply Nat.eqb_eq. }
    rewrite E in H. exact H.
Qed.

(** ** Claim C5: empty selections in [generate_insights] *)

(** Refutation of C5 as stated: on a catalog holding one product of price 10
    and rating 4.0 the selections "over $50" and "rated 4.5 or more" are
    empty; the first mean is printed as [nan], and the look-up of the modal
    category raises [KeyError]. *)
Lemma insights_raise_on_empty_selection :
  ~ insights_tolerate_empty_subsets [add_derived_columns budget_balm] /\
  outcome (generate_insights [add_derived_columns budget_balm])
    = Raise KeyError /\
  In ("Expensive products (>$50):", [VNum NaN])
     (output (generate_insights [add_derived_columns budget_balm])).
Proof.
  split; [|split].
  - intros [H _]. vm_compute in H. discriminate.
  - reflexivity.
  - vm_compute. tauto.
Qed.

Lemma mean_spec (l : list Q) :
  (l = [] -> mean l = NaN) /\
  (l <> [] ->
   exists q, mean l = Fin q /\ (q * inject_Z (len l) == Qsum l)%Q).
Proof.
  split; [now intros ->|]. intros Hl.
  destruct l as [|x l]; [congruence|].
  eexists. split; [reflexivity|]. rewrite Qred_correct. field.
  unfold len, Qeq. simpl. lia.
Qed.

Lemma reported_mean {A} (m : IO A) text (l : list Q) :
  reported m text [VNum (mean l)] -> prints_mean_of m text l.
Proof.
  intros H. exists (mean l). split; [exact H|]. apply mean_spec.
Qed.

(** C5 (amended).  [generate_insights] has no "no data" result.  When the
    catalog holds a product rated 4.5 or more, the run ends without an
    exception and prints each of its six means; a mean is printed as [nan]
    when its selection is empty (no division fault) and as the mean of the
    selection otherwise. *)
Theorem generate_insights_empty_subsets (data : list Row) :
  (exists r : Row, In r data /\ (4.5 <= rating r)%Q) ->
  outcome (generate_insights data) = Ok tt /\
  prints_mean_of (generate_insights data) "Expensive products (>$50):"
                 (ratings (expensive data)) /\
  prints_mean_of (generate_insights data) "Affordable products (<=$30):"
                 (ratings (affordable data)) /\
  prints_mean_of (generate_insights data) "Skincare average:"
                 (prices (skincare data)) /\
  prints_mean_of (generate_insights data) "Makeup average:"
                 (prices (makeup data)) /\
  prints_mean_of (generate_insights data) "Average rating:"
                 (ratings (sweet_spot data)) /\
  prints_mean_of (generate_insights data) "Average price:"
                 (prices (high_rated data)).
Proof.
  intros [r [Hr Hrating]].
  assert (H1 : exists share,
             py_truediv (len (sweet_spot data)) (len data) = Ok share).
  { unfold py_truediv, len. destruct data as [|x data]; [contradiction|].
    simpl List.length. rewrite Nat2Z.inj_succ.
    destruct (Z.eqb_spec (Z.succ (Z.of_nat (List.length data))) 0);
      [lia|eauto]. }
  assert (H2 : exists mc,
             getitem0 (mode (categories (high_rated data))) = Ok mc).
  { assert (Hh : In r (high_rated data)).
    { apply filter_In. split; [exact Hr|]. now apply Qle_bool_iff. }
    destruct (mode (categories (high_rated data))) as [|mc ms] eqn:E.
    - exfalso. revert E. apply mode_nonempty.
      destruct (high_rated data); [contradiction|discriminate].
    - simpl. eauto. }
  destruct H1 as [share H1], H2 as [mc H2].
  assert (Hout :
    reported (generate_insights data) "Expensive products (>$50):"
             [VNum (mean (ratings (expensive data)))] /\
    reported (generate_insights data) "Affordable products (<=$30):"
             [VNum (mean (ratings (affordable data)))] /\
    reported (generate_insights data) "Skincare average:"
             [VNum (mean (prices (skincare data)))] /\
    reported (generate_insights data) "Makeup average:"
             [VNum (mean (prices (makeup data)))] /\
    reported (generate_insights data) "Average rating:"
             [VNum (mean (ratings (sweet_spot data)))] /\
    reported (generate_insights data) "Average price:"
             [VNum (mean (prices (high_rated data)))]).
  { unfold reported, generate_insights. run. rewrite H1. run. rewrite H2.
    run. simpl. tauto. }
  split.
  - unfold generate_insights. run. rewrite H1. run. now rewrite H2.
  - destruct Hout as [E1 [E2 [E3 [E4 [E5 E6]]]]].
    repeat split; now apply reported_mean.
Qed.

(** The amended C5 on a catalog whose only product costs 10 and is rated
    4.7: nothing costs more than $50, and the run ends normally with that
    mean printed as [nan]. *)
Lemma generate_insights_empty_subsets_witness :
  expensive rated_only = [] /\
  outcome (generate_insights rated_only) = Ok tt /\
  prints_mean_of (generate_insights rated_only) "Expensive products (>$50):"
                 (ratings (expensive rated_only)).
Proof.
  assert (H : exists r : Row, In r rated_only /\ (4.5 <= rating r)%Q).
  { exists (add_derived_columns rated_balm). split; [left; reflexivity|].
    unfold Qle. simpl. lia. }
  split; [reflexivity|].
  exact (conj (proj1 (generate_insights_empty_subsets rated_only H))
              (proj1 (proj2 (generate_insights_empty_subsets rated_only H)))).
Defined.

(** ** [idxmax] *)

Lemma first_max_In {L} (s : Series L) l x :
  first_max s = Some (l, x) -> In (l, x) s /\ isnan x = false.
Proof.
  induction s as [|[l0 x0] s IH]; simpl; [discriminate|].
  destruct (isnan x0) eqn:N.
  - intros H. apply IH in H. tauto.
  - destruct (first_max s) as [[l' y]|].
    + destruct (F64.ltb x0 y); intros E; inversion E; subst.
      * destruct IH; auto.
      * auto.
    + intros E. inversion E; subst. auto.
Qed.

Lemma first_max_None {L} (s : Series L) :
  first_max s = None <-> Forall (fun e => isnan (snd e) = true) s.
Proof.
  induction s as [|[l0 x0] s IH]; simpl.
  - split; auto.
  - destruct (isnan x0) eqn:N.
    + rewrite IH. split; intros H.
      * constructor; auto.
      * now inversion H.
    + split.
      * destruct (first_max s) as [[l' y]|]; [destruct (F64.ltb x0 y)|];
          discriminate.
      * intros H. inversion H; subst. simpl in *. congruence.
Qed.

Lemma idxmax_raises {L} (s : Series L) e :
  idxmax s = Raise e -> e = ValueError /\ first_max s = None.
Proof.
  unfold idxmax. destruct (first_max s) as [[l x]|]; [discriminate|].
  intros E. inversion E. auto.
Qed.

Lemma idxmax_column_loc {R} (f : R -> f64) (df : list R) i :
  idxmax (enumerate (map f df)) = Ok i ->
  exists r, loc df i = Ok r /\ In r df /\ isnan (f r) = false.
Proof.
  unfold idxmax, enumerate.
  destruct (first_max (enumerate_from 0 (map f df))) as [[l x]|] eqn:E;
    [|discriminate].
  intros H. inversion H; subst. apply first_max_In in E. destruct E as [E N].
  apply In_enumerate_from in E. destruct E as [_ E].
  rewrite Nat.sub_0_r, nth_error_map in E.
  unfold loc. destruct (nth_error df i) as [r|] eqn:Er; [|discriminate].
  simpl in E. inversion E; subst. exists r. repeat split; auto.
  eapply nth_error_In; eauto.
Qed.

Lemma Forall_enumerate_from {A} (P : A -> Prop) k (l : list A) :
  Forall (fun e => P (snd e)) (enumerate_from k l) <-> Forall P l.
Proof.
  revert k. induction l as [|x l IH]; intros k; simpl.
  - split; constructor.
  - split; intros H; inversion H; subst; constructor; auto;
      now apply (IH (S k)).
Qed.

(** ** Claim C6: [summary_statistics] on a catalog without rows *)

(** Refutation of C6 as stated: on the empty catalog the run reports both
    means and both medians as [nan], and the exception that ends it is the
    [ValueError] of [idxmax]. *)
Lemma summary_reports_nan_on_empty_catalog :
  ~ summary_rejects_empty_catalog /\
  In ("Average Price:", [VNum NaN]) (output (summary_statistics [])) /\
  In ("Median Rating:", [VNum NaN]) (output (summary_statistics [])) /\
  outcome (summary_statistics []) = Raise ValueError.
Proof.
  assert (H : In ("Average Price:", [VNum NaN])
                 (output (summary_statistics []))) by (vm_compute; tauto).
  repeat split.
  - intros C. apply (C _ _ H). now left.
  - exact H.
  - vm_compute. tauto.
Qed.

(** C6 (amended).  No aggregate raises on zero rows: mean, median, minimum
    and maximum are [nan] and the sum is 0.  [summary_statistics] prints
    them and then fails in [idxmax] with [ValueError]; there is no
    [EmptyCatalogError].  In general the run ends normally exactly when some
    row has a value score other than [nan]. *)
Theorem summary_statistics_outcome (data : list Row) :
  (mean [] = NaN /\ median [] = NaN /\ min [] = NaN /\ max [] = NaN /\
   Zsum [] = 0) /\
  (outcome (summary_statistics data) = Ok tt <->
   exists r : Row, In r data /\ value_score r <> NaN) /\
  (data = [] ->
   outcome (summary_statistics data) = Raise ValueError /\
   forall text,
     In text ["Average Price:"; "Median Price:"; "Average Rating:";
              "Median Rating:"; "Average Reviews per Product:"] ->
     In (text, [VNum NaN]) (output (summary_statistics data))).
Proof.
  split; [repeat split|].
  assert (Hrun :
    outcome (summary_statistics data) =
    match idxmax (price_series data) with
    | Ok i =>
        match loc data i with
        | Ok _ =>
            match idxmax (value_score_series data) with
            | Ok j => match loc data j with
                      | Ok _ => Ok tt
                      | Raise e => Raise e
                      end
            | Raise e => Raise e
            end
        | Raise e => Raise e
        end
    | Raise e => Raise e
    end).
  { unfold summary_statistics. run.
    destruct (idxmax (price_series data)) as [i|]; [|reflexivity]. run.
    destruct (loc data i); [|reflexivity]. run.
    destruct (idxmax (value_score_series data)) as [j|]; [|reflexivity]. run.
    destruct (loc data j); [|reflexivity]. run. reflexivity. }
  assert (Hcases :
    (outcome (summary_statistics data) = Ok tt /\
     exists r : Row, In r data /\ value_score r <> NaN) \/
    (outcome (summary_statistics data) = Raise ValueError /\
     forall r : Row, In r data -> value_score r = NaN)).
  { rewrite Hrun. unfold price_series, value_score_series.
    destruct (idxmax (enumerate
                (map (fun r : Row => F64.of_Z (price r)) data))) as [i|e] eqn:Ei.
    - destruct (idxmax_column_loc _ _ _ Ei) as [r [-> _]].
      destruct (idxmax (enumerate (map value_score data))) as [j|e] eqn:Ej.
      + destruct (idxmax_column_loc _ _ _ Ej) as [r' [-> [Hin N]]].
        left. split; [reflexivity|]. exists r'. split; [exact Hin|].
        intros E. rewrite E in N. discriminate.
      + right. apply idxmax_raises in Ej. destruct Ej as [-> Ej].
        split; [reflexivity|]. apply first_max_None in Ej.
        apply (proj1 (Forall_enumerate_from (fun x => isnan x = true) _ _))
          in Ej.
        rewrite Forall_map, Forall_forall in Ej. intros r0 H0.
        specialize (Ej r0 H0). now destruct (value_score r0).
    - right. apply idxmax_raises in Ei. destruct Ei as [-> Ei].
      split; [reflexivity|]. apply first_max_None in Ei.
      apply (proj1 (Forall_enumerate_from (fun x => isnan x = true) _ _))
        in Ei.
      rewrite Forall_map, Forall_forall in Ei. intros r0 H0.
      specialize (Ei r0 H0). discriminate. }
  split.
  - split.
    + intros H. destruct Hcases as [[_ Hex]|[Hr _]]; [exact Hex|congruence].
    + intros [r [Hin Hv]]. destruct Hcases as [[H _]|[_ Hall]]; [exact H|].
      now specialize (Hall r Hin).
  - intros ->. split; [reflexivity|].
    intros text Ht. simpl in Ht.
    repeat (destruct Ht as [<-|Ht]; [vm_compute; tauto|]). contradiction.
Qed.

(** The amended C6 on the empty catalog. *)
Lemma summary_statistics_outcome_witness :
  outcome (summary_statistics []) = Raise ValueError.
Proof.
  apply (proj1 (proj2 (proj2 (summary_statistics_outcome [])) eq_refl)).
Defined.

(** ** Ascending order of keys *)

Lemma ltb_compare a b : String.ltb a b = true <-> String.compare a b = Lt.
Proof.
  unfold String.ltb. destruct (String.compare a b); split; congruence.
Qed.

Lemma string_ltb_trans a b c :
  String.ltb a b = true -> String.ltb b c = true -> String.ltb a c = true.
Proof.
  rewrite !ltb_compare. intros H1 H2.
  apply String_as_OT.cmp_lt in H1. apply String_as_OT.cmp_lt in H2.
  apply String_as_OT.cmp_lt. eapply String_as_OT.lt_trans; eauto.
Qed.

Lemma string_leb_neq a b :
  String.leb a b = true -> a <> b -> String.ltb a b = true.
Proof.
  unfold String.leb, String.ltb. intros H N.
  destruct (String.compare a b) eqn:E; try congruence.
  apply String.compare_eq_iff in E. contradiction.
Qed.

Lemma string_leb_false a b : String.leb a b = false -> String.ltb b a = true.
Proof.
  unfold String.leb, String.ltb. rewrite (String.compare_antisym a b).
  destruct (String.compare b a); simpl; congruence.
Qed.

Lemma string_ltb_leb a b : String.ltb a b = true -> String.leb a b = true.
Proof.
  unfold String.leb, String.ltb. destruct (String.compare a b); congruence.
Qed.

Lemma string_leb_refl a : String.leb a a = true.
Proof.
  unfold String.leb.
  assert (E : String.compare a a = Eq) by now apply String_as_OT.cmp_eq.
  now rewrite E.
Qed.

Lemma string_ltb_irrefl a : String.ltb a a = false.
Proof.
  unfold String.ltb.
  assert (E : String.compare a a = Eq) by now apply String_as_OT.cmp_eq.
  now rewrite E.
Qed.

Lemma string_ltb_asym a b : String.ltb a b = true -> String.ltb b a = false.
Proof.
  intros H. destruct (String.ltb b a) eqn:E; [|reflexivity].
  pose proof (string_ltb_trans _ _ _ H E) as C.
  rewrite string_ltb_irrefl in C. discriminate.
Qed.

Lemma NoDup_unique l : NoDup (unique l).
Proof.
  induction l as [|x l IH]; simpl; constructor.
  - rewrite filter_In, negb_true_iff, String.eqb_neq. tauto.
  - now apply NoDup_filter.
Qed.

Lemma insert_key_sorted k l :
  StronglySorted (fun a b => String.ltb a b = true) l ->
  ~ In k l ->
  StronglySorted (fun a b => String.ltb a b = true) (insert_key k l).
Proof.
  induction 1 as [|y l Hs IH Hy]; intros Hk; simpl.
  - repeat constructor.
  - destruct (String.leb k y) eqn:E.
    + assert (Hky : String.ltb k y = true).
      { apply string_leb_neq; [exact E|]. intros ->. apply Hk. now left. }
      constructor; [now constructor|].
      constructor; [exact Hky|].
      eapply Forall_impl; [|exact Hy]. intros z Hz.
      eapply string_ltb_trans; eauto.
    + constructor.
      * apply IH. intros H. apply Hk. now right.
      * apply Forall_forall. intros z Hz. apply In_insert_key in Hz.
        destruct Hz as [->|Hz]; [now apply string_leb_false|].
        rewrite Forall_forall in Hy. now apply Hy.
Qed.

Lemma sort_keys_sorted l :
  NoDup l -> StronglySorted (fun a b => String.ltb a b = true) (sort_keys l).
Proof.
  induction 1 as [|x l Hx Hn IH]; simpl; [constructor|].
  apply insert_key_sorted; [exact IH|]. now rewrite In_sort_keys.
Qed.

Lemma groupby_keys {R} (by_ : R -> string) (df : list R) :
  map fst (groupby by_ df) = sort_keys (unique (map by_ df)).
Proof.
  unfold groupby. rewrite map_map. simpl. apply map_id.
Qed.

(** ** The first maximum of a series *)

Ltac q_props :=
  repeat match goal with
         | H : Qltb _ _ = true |- _ => apply Qltb_lt in H
         | H : Qltb _ _ = false |- _ => apply Qltb_ge in H
         | |- Qltb _ _ = true => apply Qltb_lt
         | |- Qltb _ _ = false => apply Qltb_ge
         end.

Lemma ltb_negtrans a b c :
  isnan b = false ->
  F64.ltb a b = false -> F64.ltb b c = false -> F64.ltb a c = false.
Proof.
  destruct a, b, c; simpl; intros; try congruence; q_props; lra.
Qed.

Lemma ltb_below a b c :
  F64.ltb a b = true -> F64.ltb c b = false -> F64.ltb c a = false.
Proof.
  destruct a, b, c; simpl; intros; try congruence; q_props; lra.
Qed.

Lemma ltb_asym a b : F64.ltb a b = true -> F64.ltb b a = false.
Proof.
  destruct a, b; simpl; intros; try congruence; q_props; lra.
Qed.

Lemma first_max_spec {L} (s : Series L) l x :
  first_max s = Some (l, x) ->
  exists before after,
    s = (before ++ (l, x) :: after)%list /\
    (forall e, In e before ->
               isnan (snd e) = true \/ F64.ltb (snd e) x = true) /\
    (forall e, In e after -> F64.ltb x (snd e) = false).
Proof.
  revert l x. induction s as [|[l0 x0] s IH]; intros l x; simpl;
    [discriminate|].
  destruct (isnan x0) eqn:N.
  - intros H. destruct (IH _ _ H) as [b [a [-> [Hb Ha]]]].
    exists ((l0, x0) :: b), a. repeat split; auto.
    intros e [<-|He]; auto.
  - destruct (first_max s) as [[l' y]|] eqn:F.
    + destruct (IH _ _ eq_refl) as [b [a [-> [Hb Ha]]]].
      destruct (first_max_In _ _ _ F) as [_ Ny].
      destruct (F64.ltb x0 y) eqn:C; intros E; inversion E; subst.
      * exists ((l0, x0) :: b), a. repeat split; auto.
        intros e [<-|He]; auto.
      * exists [], (b ++ (l', y) :: a)%list.
        split; [reflexivity|]. split; [intros e He; destruct He|].
        intros e He. apply in_app_or in He.
        destruct He as [He|[<-|He]].
        -- destruct (Hb e He) as [Hn|Hl].
           ++ destruct (snd e); try discriminate. now destruct x.
           ++ eapply ltb_below; eauto.
        -- exact C.
        -- eapply ltb_negtrans; eauto.
    + intros E. inversion E; subst. exists [], s.
      split; [reflexivity|]. split; [intros e He; destruct He|].
      apply first_max_None in F. rewrite Forall_forall in F.
      intros e He. specialize (F e He).
      destruct (snd e); try discriminate. now destruct x.
Qed.

(** One step of [first_max]: the entry in front against the first maximum of
    the rest. *)
Lemma first_max_cons {L} (e : L * f64) (s : Series L) :
  first_max (e :: s) =
  if isnan (snd e) then first_max s
  else match first_max s with
       | Some (l', y) => if F64.ltb (snd e) y then Some (l', y) else Some e
       | None => Some e
       end.
Proof. destruct e. reflexivity. Qed.

Lemma first_max_swap {L} (a b : L * f64) (s : Series L) :
  lt_nanlast (snd a) (snd b) = true ->
  first_max (b :: a :: s) = first_max (a :: b :: s).
Proof.
  intros H. repeat rewrite first_max_cons.
  destruct a as [la xa], b as [lb xb]. cbn [snd] in *.
  destruct (first_max s) as [[l' y]|] eqn:F.
  - destruct (first_max_In _ _ _ F) as [_ Ny].
    destruct xa, xb, y; simpl in *; try congruence;
      repeat match goal with
             | |- context [Qltb ?u ?v] => destruct (Qltb u v) eqn:?
             end; simpl; try congruence; try reflexivity;
      exfalso; q_props; lra.
  - destruct xa, xb; simpl in *; try congruence;
      repeat match goal with
             | |- context [Qltb ?u ?v] => destruct (Qltb u v) eqn:?
             end; simpl; try congruence; try reflexivity;
      exfalso; q_props; lra.
Qed.

Lemma first_max_insert_desc {A L} (g : A -> L * f64) x l :
  first_max (map g (insert_desc (fun e => snd (g e)) x l)) =
  first_max (map g (x :: l)).
Proof.
  induction l as [|y l IH]; simpl; [reflexivity|].
  destruct (lt_nanlast (snd (g x)) (snd (g y))) eqn:E.
  - cbn [map]. rewrite first_max_cons, IH. cbn [map].
    rewrite <- first_max_cons. now apply first_max_swap.
  - reflexivity.
Qed.

Lemma first_max_sort_desc {A L} (g : A -> L * f64) l :
  first_max (map g (sort_desc (fun e => snd (g e)) l)) = first_max (map g l).
Proof.
  induction l as [|x l IH]; [reflexivity|].
  unfold sort_desc in *. cbn [fold_right].
  rewrite first_max_insert_desc. cbn [map].
  rewrite !first_max_cons. now rewrite IH.
Qed.

(** ** Claim C3: order and ties in [category_analysis] *)

Lemma of_nat_ltb a b : F64.ltb (F64.of_nat a) (F64.of_nat b) = (a <? b)%nat.
Proof.
  unfold F64.of_nat, F64.of_Z. simpl. rewrite Qltb_inject.
  destruct (Z.ltb_spec (Z.of_nat a) (Z.of_nat b)), (Nat.ltb_spec a b);
    try reflexivity; lia.
Qed.

Lemma StronglySorted_after {A} (P : A -> A -> Prop) l1 x l2 :
  StronglySorted P (l1 ++ x :: l2) -> Forall (P x) l2.
Proof.
  induction l1 as [|y l1 IH]; simpl; intros H; inversion H; subst; auto.
Qed.

Lemma category_stats_keys (data : list Row) :
  map fst (category_stats data) = sort_keys (unique (categories data)).
Proof.
  unfold category_stats. rewrite map_map. simpl.
  apply (groupby_keys (fun r : Row => category r)).
Qed.

Lemma category_mean_rating_eq rating_mean (data : list Row) :
  category_mean_rating rating_mean data =
  map (fun k => (k, mean_rating_of rating_mean data k))
      (sort_keys (unique (categories data))).
Proof.
  unfold category_mean_rating, groupby. now rewrite map_map.
Qed.

Lemma category_counts_first_max (data : list Row) :
  first_max (category_counts data) =
  first_max (map (fun k => (k, F64.of_nat (count k (categories data))))
                 (unique (categories data))).
Proof.
  unfold category_counts, value_counts.
  rewrite (first_max_sort_desc
             (fun e : string * nat => (fst e, F64.of_nat (snd e)))).
  now rewrite map_map.
Qed.

Lemma group_ratings_nonempty (data : list Row) c :
  In c (categories data) ->
  ratings (filter (fun r : Row => (category r =? c)%string) data) <> [].
Proof.
  unfold categories. intros H. apply in_map_iff in H.
  destruct H as [r [Hc Hr]].
  assert (Hf : In r (filter (fun r0 : Row => (category r0 =? c)%string) data)).
  { apply filter_In. split; [exact Hr|]. now apply String.eqb_eq. }
  destruct (filter (fun r0 : Row => (category r0 =? c)%string) data);
    [contradiction|discriminate].
Qed.

Lemma ltb_irrefl x : F64.ltb x x = false.
Proof.
  destruct x; simpl; try reflexivity. apply Qltb_ge, Qle_refl.
Qed.

Lemma ltb_nan_r x y : isnan y = true -> F64.ltb x y = false.
Proof. destruct x, y; simpl; congruence. Qed.

(** Refutation of C3 as stated: with a "Lips" row followed by a "Face" row of
    the same rating, the groups come out as Face, Lips, and the tie for the
    highest mean rating goes to "Face", the category met second.  Both groups
    hold the single rating 4.0, so their means agree whatever the mean
    function. *)
Lemma groups_are_sorted_by_name :
  ~ groups_in_first_appearance_order lips_then_face /\
  unique (categories lips_then_face) = ["Lips"; "Face"] /\
  map fst (category_stats lips_then_face) = ["Face"; "Lips"] /\
  (forall rating_mean,
      mean_rating_of rating_mean lips_then_face "Lips" =
      mean_rating_of rating_mean lips_then_face "Face") /\
  (forall rating_mean,
      isnan (rating_mean [4.0%Q]) = false ->
      idxmax (category_mean_rating rating_mean lips_then_face) = Ok "Face") /\
  idxmax (category_mean_rating mean lips_then_face) = Ok "Face".
Proof.
  split; [intros H; vm_compute in H; discriminate|].
  split; [reflexivity|]. split; [reflexivity|]. split; [reflexivity|].
  split; [|reflexivity].
  intros rating_mean H.
  change (category_mean_rating rating_mean lips_then_face)
    with [("Face", rating_mean [4.0%Q]); ("Lips", rating_mean [4.0%Q])].
  unfold idxmax. cbn [first_max]. rewrite H, ltb_irrefl. reflexivity.
Qed.

(** C3 (amended).  [category_analysis] lists the distinct categories in
    ascending order of their names, each once.  The highest rated category is
    one whose computed mean rating no category's computed mean exceeds and,
    among the categories whose computed mean equals it, the alphabetically
    first; this holds for the means as the program computes them, whatever
    their rounding.  The category with most products has the largest count
    and, among categories of that same count, is the one met first in the
    catalog. *)
Theorem category_analysis_order (rating_mean : list Q -> f64)
    (data : list Row) :
  StronglySorted (fun a b => String.ltb a b = true)
                 (map fst (category_stats data)) /\
  (forall c, In c (map fst (category_stats data)) <-> In c (categories data)) /\
  (forall c,
      idxmax (category_mean_rating rating_mean data) = Ok c ->
      isnan (mean_rating_of rating_mean data c) = false /\
      forall c', In c' (categories data) ->
        F64.ltb (mean_rating_of rating_mean data c)
                (mean_rating_of rating_mean data c') = false /\
        (isnan (mean_rating_of rating_mean data c') = false ->
         F64.ltb (mean_rating_of rating_mean data c')
                 (mean_rating_of rating_mean data c) = false ->
         String.leb c c' = true)) /\
  (forall c,
      idxmax (category_counts data) = Ok c ->
      exists before after,
        unique (categories data) = (before ++ c :: after)%list /\
        (forall c', In c' before ->
           (count c' (categories data) < count c (categories data))%nat) /\
        (forall c', In c' after ->
           (count c' (categories data) <= count c (categories data))%nat)).
Proof.
  split; [|split; [|split]].
  - rewrite category_stats_keys. apply sort_keys_sorted, NoDup_unique.
  - intros c. now rewrite category_stats_keys, In_sort_keys, In_unique.
  - intros c Hc. unfold idxmax in Hc.
    destruct (first_max (category_mean_rating rating_mean data))
      as [[l v]|] eqn:F; [|discriminate].
    inversion Hc; subst l. clear Hc.
    destruct (first_max_In _ _ _ F) as [_ Nv].
    apply first_max_spec in F. destruct F as [b [a [E [Hb Ha]]]].
    rewrite category_mean_rating_eq in E.
    apply map_eq_app in E. destruct E as [kb [ka' [Ek [Eb Ea]]]].
    apply map_eq_cons in Ea. destruct Ea as [c0 [ka [-> [Ec Ea]]]].
    inversion Ec; subst c0 v. clear Ec.
    split; [exact Nv|]. intros c' Hc'.
    pose proof (sort_keys_sorted _ (NoDup_unique (categories data))) as Hs.
    rewrite Ek in Hs. apply StronglySorted_after in Hs.
    rewrite Forall_forall in Hs.
    assert (Hin : In c' (kb ++ c :: ka)).
    { rewrite <- Ek. now apply In_sort_keys, In_unique. }
    apply in_app_or in Hin. destruct Hin as [Hin|[<-|Hin]].
    + assert (He : In (c', mean_rating_of rating_mean data c') b).
      { rewrite <- Eb. apply in_map_iff. eauto. }
      destruct (Hb _ He) as [N|Hlt]; cbn [snd] in *.
      * split; [now apply ltb_nan_r|]. congruence.
      * split; [now apply ltb_asym|]. congruence.
    + split; [apply ltb_irrefl|]. intros _ _. apply string_leb_refl.
    + assert (He : In (c', mean_rating_of rating_mean data c') a).
      { rewrite <- Ea. apply in_map_iff. eauto. }
      split; [exact (Ha _ He)|]. intros _ _.
      apply string_ltb_leb. now apply Hs.
  - intros c Hc. unfold idxmax in Hc. rewrite category_counts_first_max in Hc.
    destruct (first_max
                (map (fun k => (k, F64.of_nat (count k (categories data))))
                     (unique (categories data)))) as [[l v]|] eqn:F;
      [|discriminate].
    inversion Hc; subst l. clear Hc.
    apply first_max_spec in F. destruct F as [b [a [E [Hb Ha]]]].
    apply map_eq_app in E. destruct E as [kb [ka' [Ek [Eb Ea]]]].
    apply map_eq_cons in Ea. destruct Ea as [c0 [ka [-> [Ec Ea]]]].
    inversion Ec; subst c0 v. clear Ec.
    exists kb, ka. split; [exact Ek|]. split; intros c' Hc'.
    + assert (He : In (c', F64.of_nat (count c' (categories data))) b).
      { rewrite <- Eb. apply in_map_iff. eauto. }
      destruct (Hb _ He) as [N|Hlt]; cbn [snd] in *; [discriminate|].
      rewrite of_nat_ltb in Hlt. now apply Nat.ltb_lt.
    + assert (He : In (c', F64.of_nat (count c' (categories data))) a).
      { rewrite <- Ea. apply in_map_iff. eauto. }
      specialize (Ha _ He). cbn [snd] in Ha. rewrite of_nat_ltb in Ha.
      now apply Nat.ltb_ge.
Qed.

(** The amended C3 at a tie: "Lips" and "Face" both hold the single rating
    4.0, "Face" is the highest rated, and it is the alphabetically first of
    the two. *)
Lemma category_analysis_order_witness :
  F64.ltb (mean_rating_of mean lips_then_face "Face")
          (mean_rating_of mean lips_then_face "Lips") = false /\
  (isnan (mean_rating_of mean lips_then_face "Lips") = false ->
   F64.ltb (mean_rating_of mean lips_then_face "Lips")
           (mean_rating_of mean lips_then_face "Face") = false ->
   String.leb "Face" "Lips" = true).
Proof.
  exact (proj2 (proj1 (proj2 (proj2
                  (category_analysis_order mean lips_then_face)))
                  "Face" eq_refl)
               "Lips" (or_introl eq_refl)).
Defined.

(** ** Claim C1: the summary of the embedded catalog *)

Lemma columns_same_length :
  List.length product_name_column = 40%nat /\
  List.length brand_column = 40%nat /\
  List.length category_column = 40%nat /\
  List.length price_column = 40%nat /\
  List.length rating_column = 40%nat /\
  List.length num_reviews_column = 40%nat.
Proof. repeat split; reflexivity. Qed.

(** Refutation of C1 as stated: the mean price printed for the embedded
    catalog is 1583/40 = 39.575, which is not 38.97 to two decimals. *)
Lemma mean_price_is_not_38_97 : ~ summary_as_specified.
Proof.
  intros [p [r [Hp [[q [Eq Hq]] _]]]]. unfold reported in Hp.
  vm_compute in Hp.
  repeat (destruct Hp as [Hp|Hp]; [try discriminate Hp|]); [|contradiction].
  injection Hp as <-. injection Eq as <-.
  vm_compute in Hq. now apply Hq.
Qed.

(** C1 (amended).  The embedded catalog has 40 rows.  [summary_statistics]
    reports a mean price of 1583/40 = 39.575 (39.58 to two decimals), a mean
    rating of 891/200 = 4.455 (4.46 to two decimals), and as best value "The
    Ordinary Serum", price 7, rating 4.4.  Its value score 44/7 (6.29 to two
    decimals) is the first maximum of the column, at row 9, and every other
    row scores strictly less. *)
Theorem summary_on_sample_data :
  List.length create_sample_data = 40%nat /\
  reported (summary_statistics create_sample_data)
           "Average Price:" [VNum (Fin (1583 # 40))] /\
  (1583 # 40 == 39.575)%Q /\ approx (Fin (1583 # 40)) 39.58 /\
  reported (summary_statistics create_sample_data)
           "Average Rating:" [VNum (Fin (891 # 200))] /\
  (891 # 200 == 4.455)%Q /\ approx (Fin (891 # 200)) 4.46 /\
  reported (summary_statistics create_sample_data)
           "best_value:" [VStr "The Ordinary Serum"; VInt 7; VNum (Fin 4.4)] /\
  idxmax (value_score_series create_sample_data) = Ok 9%nat /\
  (exists row : Row,
      nth_error create_sample_data 9 = Some row /\
      product_name row = "The Ordinary Serum" /\
      price row = 7 /\ (rating row == 4.4)%Q /\
      value_score row = Fin (44 # 7) /\ approx (value_score row) 6.29) /\
  (forall r : Row,
      In r create_sample_data ->
      product_name r = "The Ordinary Serum" \/
      F64.ltb (value_score r) (Fin (44 # 7)) = true).
Proof.
  assert (Hap : forall n d, Qle_bool (Qabs (n - d)) 0.005 = true ->
                            approx (Fin n) d).
  { intros n d H. exists n. split; [reflexivity|]. now apply Qle_bool_iff. }
  split; [reflexivity|].
  split; [vm_compute; tauto|].
  split; [vm_compute; reflexivity|].
  split; [apply Hap; reflexivity|].
  split; [vm_compute; tauto|].
  split; [vm_compute; reflexivity|].
  split; [apply Hap; reflexivity|].
  split; [vm_compute; tauto|].
  split; [reflexivity|].
  split.
  - eexists. split; [reflexivity|]. cbn.
    repeat split; try reflexivity. apply Hap. reflexivity.
  - assert (H : forallb
                  (fun r : Row =>
                     (product_name r =? "The Ordinary Serum")%string
                     || F64.ltb (value_score r) (Fin (44 # 7)))
                  create_sample_data = true) by (vm_compute; reflexivity).
    rewrite forallb_forall in H. intros r Hr. specialize (H r Hr).
    apply orb_true_iff in H. destruct H as [H|H]; [left|right; exact H].
    now apply String.eqb_eq.
Qed.

(** ** Claim C9: every embedded price lies in (0, 200] *)

Lemma value_score_finite (p : Product) :
  price p <> 0 -> exists q, value_score_of p = Fin q.
Proof.
  intros Hp. unfold value_score_of, F64.div.
  destruct (Qeq_bool (inject_Z (price p) / 10) 0) eqn:E; [|eauto].
  apply Qeq_bool_iff in E. exfalso. apply Hp.
  assert (H : (inject_Z (price p) == 0)%Q).
  { setoid_replace (inject_Z (price p))
      with ((inject_Z (price p) / 10) * 10)%Q by field.
    rewrite E. ring. }
  unfold Qeq in H. simpl in H. lia.
Qed.

Lemma price_range_assigned (p : Product) :
  0 < price p <= 200 ->
  exists b, price_range_of p = Some b /\ In b price_labels.
Proof.
  intros Hp. rewrite price_range_of_eq. unfold price_labels.
  destruct (Z.ltb_spec 0 (price p)), (Z.leb_spec (price p) 20),
    (Z.ltb_spec 20 (price p)), (Z.leb_spec (price p) 40),
    (Z.ltb_spec 40 (price p)), (Z.leb_spec (price p) 70),
    (Z.ltb_spec 70 (price p)), (Z.leb_spec (price p) 200);
    simpl; try lia; eexists; (split; [reflexivity|]); simpl; tauto.
Qed.

Lemma derived_columns (data : list Product) (r : Row) :
  In r (map add_derived_columns data) ->
  value_score r = value_score_of r /\ price_range r = price_range_of r.
Proof.
  intros H. apply in_map_iff in H. destruct H as [p [<- _]]. now split.
Qed.

(** C9.  Every price of the embedded catalog lies between 7 and 185, both
    attained.  Hence every row has a finite value score and one of the four
    price ranges, and the percentages printed by [price_analysis] for the
    four ranges (12.5, 55, 27.5 and 5) add up to 100. *)
Theorem sample_prices_within_bins :
  Forall (fun r : Row => 7 <= price r <= 185) create_sample_data /\
  (exists r : Row, In r create_sample_data /\ price r = 7) /\
  (exists r : Row, In r create_sample_data /\ price r = 185) /\
  Forall (fun r : Row => exists q, value_score r = Fin q) create_sample_data /\
  Forall (fun r : Row =>
            exists b, price_range r = Some b /\ In b price_labels)
         create_sample_data /\
  map fst (price_dist create_sample_data) = price_labels /\
  (exists a b c d,
      map (fun e => percentage (snd e) create_sample_data)
          (price_dist create_sample_data)
      = [Ok (Fin a); Ok (Fin b); Ok (Fin c); Ok (Fin d)] /\
      (a + b + c + d == 100)%Q) /\
  (forall corr,
      reported (price_analysis corr create_sample_data)
               "Budget" [VInt 5; VNum (Fin (25 # 2))] /\
      reported (price_analysis corr create_sample_data)
               "Mid-Range" [VInt 22; VNum (Fin 55)] /\
      reported (price_analysis corr create_sample_data)
               "Premium" [VInt 11; VNum (Fin (55 # 2))] /\
      reported (price_analysis corr create_sample_data)
               "Luxury" [VInt 2; VNum (Fin 5)]).
Proof.
  assert (Hb : Forall (fun r : Row => 7 <= price r <= 185) create_sample_data).
  { apply Forall_forall. intros r Hr.
    assert (H : forallb (fun r : Row => (7 <=? price r) && (price r <=? 185))
                        create_sample_data = true) by (vm_compute; reflexivity).
    rewrite forallb_forall in H. specialize (H r Hr).
    apply andb_true_iff in H. destruct H as [H1 H2].
    apply Z.leb_le in H1. apply Z.leb_le in H2. lia. }
  split; [exact Hb|].
  split.
  { eexists. split; [do 9 right; left; reflexivity|reflexivity]. }
  split.
  { eexists. split; [do 29 right; left; reflexivity|reflexivity]. }
  rewrite Forall_forall in Hb.
  split; [|split; [|split; [|split]]].
  - apply Forall_forall. intros r Hr.
    destruct (derived_columns _ r Hr) as [-> _].
    apply value_score_finite. specialize (Hb r Hr). lia.
  - apply Forall_forall. intros r Hr.
    destruct (derived_columns _ r Hr) as [_ ->].
    apply price_range_assigned. specialize (Hb r Hr). lia.
  - reflexivity.
  - exists (25 # 2)%Q, 55%Q, (55 # 2)%Q, 5%Q.
    split; vm_compute; reflexivity.
  - intros corr. unfold reported, price_analysis. run.
    repeat split;
      (do 4 (apply in_or_app; right); apply in_or_app; left;
       vm_compute; tauto).
Qed.

(** ** Claim C10: the selections of [generate_insights] on the embedded
    catalog *)

(** C10.  On the embedded catalog none of the selections made by
    [generate_insights] is empty: 7 rows cost more than 50, 14 cost at most
    30, 24 cost between 20 and 40, 22 are rated 4.5 or more, 8 are skincare
    and 32 are makeup.  So every mean is a number, the mode of the high-rated
    categories has a first entry ("Face"), the run ends without an exception
    and prints no [nan]. *)
Theorem sample_selections_nonempty :
  (List.length (expensive create_sample_data) = 7%nat /\
   List.length (affordable create_sample_data) = 14%nat /\
   List.length (sweet_spot create_sample_data) = 24%nat /\
   List.length (high_rated create_sample_data) = 22%nat /\
   List.length (skincare create_sample_data) = 8%nat /\
   List.length (makeup create_sample_data) = 32%nat) /\
  (isfinite (mean (ratings (expensive create_sample_data))) = true /\
   isfinite (mean (ratings (affordable create_sample_data))) = true /\
   isfinite (mean (ratings (sweet_spot create_sample_data))) = true /\
   isfinite (mean (prices (high_rated create_sample_data))) = true /\
   isfinite (mean (prices (skincare create_sample_data))) = true /\
   isfinite (mean (prices (makeup create_sample_data))) = true) /\
  getitem0 (mode (categories (high_rated create_sample_data))) = Ok "Face" /\
  outcome (generate_insights create_sample_data) = Ok tt /\
  no_nan_printed (generate_insights create_sample_data).
Proof.
  split; [repeat split; vm_compute; reflexivity|].
  split; [repeat split; vm_compute; reflexivity|].
  split; [vm_compute; reflexivity|].
  split; [vm_compute; reflexivity|].
  assert (H : Forall (fun l : line => ~ In (VNum NaN) (snd l))
                     (output (generate_insights create_sample_data))).
  { vm_compute. repeat constructor; intros H;
      repeat (destruct H as [H|H]; [discriminate H|]); exact H. }
  rewrite Forall_forall in H. intros text vals Hin. exact (H _ Hin).
Qed.

(* ================================================================== *)
(** * Further properties of the methods *)

(** ** Loops that only print *)

Lemma outcome_for_each_print {A} (xs : list A) text vals :
  outcome (for_each xs (fun x => print (text x) (vals x))) = Ok tt.
Proof.
  induction xs as [|x xs IH]; [reflexivity|].
  cbn [for_each]. run. exact IH.
Qed.

Lemma output_for_each_print {A} (xs : list A) text vals :
  output (for_each xs (fun x => print (text x) (vals x))) =
  map (fun x => (text x, vals x)) xs.
Proof.
  induction xs as [|x xs IH]; [reflexivity|].
  cbn [for_each]. run. now rewrite IH.
Qed.

(** ** [top_products] on any catalog *)

(** X1.  [top_products] raises on no catalog, the empty one included, and
    prints the three banner lines, three headings and, under each heading,
    [min 5 (len data)] products. *)
Theorem top_products_never_raises (data : list Row) :
  outcome (top_products data) = Ok tt /\
  List.length (output (top_products data)) =
  (6 + 3 * Nat.min 5 (List.length data))%nat.
Proof.
  unfold top_products. split.
  - run.
    rewrite (outcome_for_each_print (top_rated data)
               (fun _ => "top_rated:")). run.
    rewrite (outcome_for_each_print (most_reviewed data)
               (fun _ => "most_reviewed:")). run.
    apply (outcome_for_each_print (best_value_top data)
             (fun _ => "best_value:")).
  - run.
    rewrite (outcome_for_each_print (top_rated data)
               (fun _ => "top_rated:")). run.
    rewrite (outcome_for_each_print (most_reviewed data)
               (fun _ => "most_reviewed:")). run.
    rewrite (output_for_each_print (top_rated data)
               (fun _ => "top_rated:")).
    rewrite (output_for_each_print (most_reviewed data)
               (fun _ => "most_reviewed:")).
    rewrite (output_for_each_print (best_value_top data)
               (fun _ => "best_value:")).
    repeat (rewrite ?length_app, ?length_map; cbn [List.length]).
    unfold top_rated, most_reviewed, best_value_top.
    rewrite !nlargest_length. lia.
Qed.

(** ** The other two rankings of [top_products] *)

Lemma lt_nanlast_of_Z a b : lt_nanlast (F64.of_Z a) (F64.of_Z b) = (a <? b).
Proof. unfold F64.of_Z. simpl. apply Qltb_inject. Qed.

Lemma NoDup_firstn_list {A} n (l : list A) : NoDup l -> NoDup (firstn n l).
Proof.
  revert n. induction l as [|x l IH]; intros [|n] H; simpl; try constructor.
  - inversion H; subst. intros Hin. apply In_firstn in Hin. contradiction.
  - apply IH. now inversion H.
Qed.

Lemma In_insert_desc_any {A} (key : A -> f64) x y l :
  In y (insert_desc key x l) <-> y = x \/ In y l.
Proof.
  induction l as [|z l IH]; simpl.
  - intuition.
  - destruct (lt_nanlast (key x) (key z)); simpl; rewrite ?IH; intuition.
Qed.

Lemma In_sort_desc_any {A} (key : A -> f64) y l :
  In y (sort_desc key l) <-> In y l.
Proof.
  induction l as [|z l IH]; simpl; [tauto|].
  rewrite In_insert_desc_any, IH. intuition.
Qed.

Lemma insert_desc_NoDup_map {A B} (g : A -> B) (key : A -> f64) x l :
  NoDup (map g (x :: l)) -> NoDup (map g (insert_desc key x l)).
Proof.
  induction l as [|y l IH]; simpl; [tauto|].
  destruct (lt_nanlast (key x) (key y)); [|tauto].
  intros H. inversion H as [|? ? Hx Hyl]; subst.
  inversion Hyl as [|? ? Hy Hl]; subst. cbn [map]. constructor.
  - intros Hin. apply in_map_iff in Hin. destruct Hin as [z [Ez Hz]].
    apply In_insert_desc_any in Hz. destruct Hz as [->|Hz].
    + apply Hx. left. congruence.
    + apply Hy. rewrite <- Ez. now apply in_map.
  - apply IH. constructor; [|exact Hl]. intros Hin. apply Hx. now right.
Qed.

Lemma sort_desc_NoDup_map {A B} (g : A -> B) (key : A -> f64) l :
  NoDup (map g l) -> NoDup (map g (sort_desc key l)).
Proof.
  induction l as [|x l IH]; simpl; [tauto|].
  intros H. inversion H as [|? ? Hx Hl]; subst.
  apply insert_desc_NoDup_map. cbn [map]. constructor; [|now apply IH].
  intros Hin. apply Hx. apply in_map_iff in Hin.
  destruct Hin as [z [Ez Hz]]. apply (proj1 (In_sort_desc_any _ _ _)) in Hz.
  rewrite <- Ez. now apply in_map.
Qed.

Lemma enumerate_from_labels_NoDup {A} k (l : list A) :
  NoDup (map fst (enumerate_from k l)).
Proof.
  revert k. induction l as [|x l IH]; intros k; simpl; constructor; [|apply IH].
  intros Hin. apply in_map_iff in Hin. destruct Hin as [[j y] [Ej Hj]].
  apply In_enumerate_from in Hj. simpl in Ej. lia.
Qed.

Lemma nlargest_labels_NoDup {R} n (column : R -> f64) (df : list R) :
  NoDup (map fst (nlargest n column df)).
Proof.
  unfold nlargest, enumerate. rewrite <- firstn_map.
  apply NoDup_firstn_list, sort_desc_NoDup_map, enumerate_from_labels_NoDup.
Qed.

(** X2.  The rows listed under "Top 5 Most Reviewed Products" number
    [min 5 (len data)] and are distinct catalog rows; their review counts
    never increase down the list, equal counts keep catalog order, and no row
    left out has more reviews than a listed one. *)
Theorem most_reviewed_stable_descending (data : list Row) :
  List.length (most_reviewed data) = Nat.min 5 (List.length data) /\
  NoDup (map fst (most_reviewed data)) /\
  (forall i row,
      In (i, row) (most_reviewed data) -> nth_error data i = Some row) /\
  StronglySorted
    (fun a b : nat * Row => num_reviews (snd b) <= num_reviews (snd a))
    (most_reviewed data) /\
  StronglySorted
    (fun a b : nat * Row =>
       num_reviews (snd a) = num_reviews (snd b) -> (fst a < fst b)%nat)
    (most_reviewed data) /\
  (forall j row e,
      nth_error data j = Some row -> ~ In (j, row) (most_reviewed data) ->
      In e (most_reviewed data) -> num_reviews row <= num_reviews (snd e)).
Proof.
  unfold most_reviewed. split; [apply nlargest_length|].
  split; [apply nlargest_labels_NoDup|].
  split; [apply nlargest_rows|].
  split; [|split].
  - eapply StronglySorted_weaken; [|apply nlargest_ranked].
    intros a b [H _]. cbn beta in H. rewrite lt_nanlast_of_Z in H.
    now apply Z.ltb_ge in H.
  - eapply StronglySorted_weaken; [|apply nlargest_ranked].
    intros a b [_ H] E. apply H. cbn beta. rewrite lt_nanlast_of_Z, E.
    apply Z.ltb_irrefl.
  - intros j row e Hj Hout He.
    pose proof (nlargest_dominates 5 (fun r : Row => F64.of_Z (num_reviews r))
                  data j row e Hj Hout He) as H.
    cbn beta in H. rewrite lt_nanlast_of_Z in H. now apply Z.ltb_ge in H.
Qed.

Lemma lt_nanlast_ge a b :
  lt_nanlast a b = false ->
  F64.ltb a b = false /\ (isnan a = true -> isnan b = true).
Proof.
  destruct a, b; simpl; intros H; split; try congruence; auto.
Qed.


(** ** [price_analysis] on any catalog *)

Lemma correlation_verdict_ok c : outcome (correlation_verdict c) = Ok tt.
Proof.
  unfold correlation_verdict.
  now destruct (F64.ltb (F64.abs c) (Fin weak_threshold)).
Qed.

Lemma len_nonzero {A} (l : list A) : l <> [] -> len l <> 0.
Proof. destruct l; [congruence|]. unfold len. simpl. lia. Qed.

Lemma percentage_nonempty (count : nat) (data : list Row) :
  data <> [] ->
  percentage count data =
  Ok (Fin (Qred (Qred (inject_Z (Z.of_nat count) / inject_Z (len data))
                 * 100))).
Proof.
  intros H. apply len_nonzero in H.
  unfold percentage, py_truediv, F64.div.
  destruct (Z.eqb_spec (len data) 0) as [E|_]; [contradiction|].
  destruct (Qeq_bool (inject_Z (len data)) 0) eqn:E; [|reflexivity].
  apply Qeq_bool_iff in E. unfold Qeq in E. simpl in E. lia.
Qed.

Lemma price_dist_count_le (data : list Row) e :
  In e (price_dist data) -> (snd e <= List.length data)%nat.
Proof.
  unfold price_dist, value_counts_categorical. intros H.
  apply in_map_iff in H. destruct H as [c [<- _]]. cbn [snd].
  etransitivity; [apply filter_length_le|]. now rewrite length_map.
Qed.

Lemma outcome_for_each_ok {A} (xs : list A) (body : A -> IO unit) :
  (forall x, In x xs -> outcome (body x) = Ok tt) ->
  outcome (for_each xs body) = Ok tt.
Proof.
  induction xs as [|x xs IH]; intros H; [reflexivity|].
  cbn [for_each]. run. rewrite (H x (or_introl eq_refl)).
  apply IH. intros y Hy. apply H. now right.
Qed.

(** X4.  [price_analysis] fails with [ZeroDivisionError] on the empty
    catalog, in the first turn of its loop and after its four heading lines
    (the division of a count by [len(self.data)] is one of two Python ints);
    on every other catalog it ends normally, whatever the correlation.  The
    four ranges are always taken in the order Budget, Mid-Range, Premium,
    Luxury, whatever the data, and on a non-empty catalog every percentage is
    a number between 0 and 100. *)
Theorem price_analysis_outcome (corr : list Q -> list Q -> f64)
    (data : list Row) :
  outcome (price_analysis corr data) =
  match data with
  | [] => Raise ZeroDivisionError
  | _ :: _ => Ok tt
  end /\
  output (price_analysis corr []) =
  [(rule "-", []); ("PRICE ANALYSIS", []); (rule "-", []);
   ("Price Range Distribution:", [])] /\
  map fst (price_dist data) = ["Budget"; "Mid-Range"; "Premium"; "Luxury"] /\
  (data <> [] ->
   Forall (fun e => exists q, percentage (snd e) data = Ok (Fin q) /\
                              (0 <= q <= 100)%Q)
          (price_dist data)).
Proof.
  split; [|split; [reflexivity|split; [reflexivity|]]].
  - destruct data as [|r data]; [reflexivity|].
    set (df := r :: data).
    assert (Hne : df <> []) by discriminate.
    unfold price_analysis. run.
    rewrite outcome_for_each_ok.
    + run. apply correlation_verdict_ok.
    + intros e _. cbn beta zeta. run.
      now rewrite (percentage_nonempty _ _ Hne).
  - intros Hne. apply Forall_forall. intros e He.
    rewrite (percentage_nonempty _ _ Hne). eexists. split; [reflexivity|].
    rewrite !Qred_correct.
    pose proof (price_dist_count_le data e He) as Hle.
    assert (Hn : (0 < inject_Z (len data))%Q).
    { pose proof (len_nonzero data Hne). unfold len in *.
      unfold Qlt. simpl. lia. }
    assert (H0 : (0 <= inject_Z (Z.of_nat (snd e)))%Q).
    { unfold Qle. simpl. lia. }
    assert (H1 : (inject_Z (Z.of_nat (snd e)) <= inject_Z (len data))%Q).
    { rewrite <- Zle_Qle. unfold len. lia. }
    split.
    + apply Qmult_le_0_compat; [|discriminate].
      apply Qle_shift_div_l; [exact Hn|]. now rewrite Qmult_0_l.
    + setoid_replace 100%Q with (1 * 100)%Q at 2 by ring.
      apply Qmult_le_compat_r; [|discriminate].
      apply Qle_shift_div_r; [exact Hn|]. now rewrite Qmult_1_l.
Qed.

(** ** Counting the rows of each price range *)

Lemma price_dist_cons (p : Product) (ps : list Product) :
  list_sum (map snd (price_dist (map add_derived_columns (p :: ps)))) =
  ((if in_some_bin p then 1 else 0) +
   list_sum (map snd (price_dist (map add_derived_columns ps))))%nat.
Proof.
  unfold price_dist, value_counts_categorical, price_labels, in_some_bin.
  cbn [map list_sum filter price_range add_derived_columns].
  rewrite price_range_of_eq.
  destruct (Z.ltb_spec 0 (price p)), (Z.leb_spec (price p) 20),
    (Z.ltb_spec 20 (price p)), (Z.leb_spec (price p) 40),
    (Z.ltb_spec 40 (price p)), (Z.leb_spec (price p) 70),
    (Z.ltb_spec 70 (price p)), (Z.leb_spec (price p) 200);
    try lia; cbn; lia.
Qed.

(** X5.  In a frame built by [create_sample_data]'s derivation, the four
    counts of [price_dist] add up to the number of rows priced within
    (0, 200]: a row priced outside is counted in no range. *)
Theorem price_dist_counts_bucketed_rows (ps : list Product) :
  list_sum (map snd (price_dist (map add_derived_columns ps))) =
  List.length (filter in_some_bin ps).
Proof.
  induction ps as [|p ps IH]; [reflexivity|].
  rewrite price_dist_cons, IH. cbn [filter].
  now destruct (in_some_bin p).
Qed.

Lemma price_dist_counts_all (ps : list Product) :
  Forall (fun p => 0 < price p <= 200) ps ->
  list_sum (map snd (price_dist (map add_derived_columns ps))) =
  List.length ps.
Proof.
  induction 1 as [|p ps Hp Hps IH]; [reflexivity|].
  rewrite price_dist_cons, IH. unfold in_some_bin.
  destruct (Z.ltb_spec 0 (price p)), (Z.leb_spec (price p) 200);
    simpl; lia.
Qed.

(** X6.  When the catalog is not empty and every price lies within
    (0, 200], [price_analysis] ends normally and prints one line for each of
    the four ranges, and the four counts it prints add up to the number of
    rows: every product is counted in exactly one range. *)
Theorem price_analysis_counts_cover_catalog
    (corr : list Q -> list Q -> f64) (ps : list Product) :
  ps <> [] ->
  Forall (fun p => 0 < price p <= 200) ps ->
  outcome (price_analysis corr (map add_derived_columns ps)) = Ok tt /\
  exists c1 c2 c3 c4 p1 p2 p3 p4,
    reported (price_analysis corr (map add_derived_columns ps))
             "Budget" [VInt c1; VNum p1] /\
    reported (price_analysis corr (map add_derived_columns ps))
             "Mid-Range" [VInt c2; VNum p2] /\
    reported (price_analysis corr (map add_derived_columns ps))
             "Premium" [VInt c3; VNum p3] /\
    reported (price_analysis corr (map add_derived_columns ps))
             "Luxury" [VInt c4; VNum p4] /\
    c1 + c2 + c3 + c4 = Z.of_nat (List.length ps).
Proof.
  intros Hne Hall.
  pose proof (price_dist_counts_all ps Hall) as Hsum.
  set (data := map add_derived_columns ps) in *.
  assert (Hd : data <> []) by (subst data; now destruct ps).
  unfold reported, price_analysis.
  unfold price_dist, value_counts_categorical, price_labels in *.
  cbn [map for_each snd fst] in *. run.
  rewrite !(percentage_nonempty _ _ Hd). run.
  split; [apply correlation_verdict_ok|].
  do 8 eexists.
  split; [do 4 (apply in_or_app; right); apply in_or_app; left;
          left; reflexivity|].
  split; [do 4 (apply in_or_app; right); apply in_or_app; left;
          right; left; reflexivity|].
  split; [do 4 (apply in_or_app; right); apply in_or_app; left;
          do 2 right; left; reflexivity|].
  split; [do 4 (apply in_or_app; right); apply in_or_app; left;
          do 3 right; left; reflexivity|].
  unfold list_sum in Hsum. cbn [fold_right] in Hsum. lia.
Qed.

(** X6 on a two-row catalog with prices 10 and 30. *)
Lemma price_analysis_counts_cover_catalog_witness :
  outcome (price_analysis (fun _ _ => NaN)
             (map add_derived_columns [budget_balm; face_cream])) = Ok tt /\
  exists c1 c2 c3 c4 p1 p2 p3 p4,
    reported (price_analysis (fun _ _ => NaN)
                (map add_derived_columns [budget_balm; face_cream]))
             "Budget" [VInt c1; VNum p1] /\
    reported (price_analysis (fun _ _ => NaN)
                (map add_derived_columns [budget_balm; face_cream]))
             "Mid-Range" [VInt c2; VNum p2] /\
    reported (price_analysis (fun _ _ => NaN)
                (map add_derived_columns [budget_balm; face_cream]))
             "Premium" [VInt c3; VNum p3] /\
    reported (price_analysis (fun _ _ => NaN)
                (map add_derived_columns [budget_balm; face_cream]))
             "Luxury" [VInt c4; VNum p4] /\
    c1 + c2 + c3 + c4 = Z.of_nat (List.length [budget_balm; face_cream]).
Proof.
  refine (price_analysis_counts_cover_catalog (fun _ _ => NaN)
            [budget_balm; face_cream] _ _).
  - discriminate.
  - repeat constructor; simpl; lia.
Defined.

Lemma StronglySorted_NoDup_keys (l : list string) :
  StronglySorted (fun a b => String.ltb a b = true) l -> NoDup l.
Proof.
  induction 1 as [|x l Hs IH Hx]; constructor; [|exact IH].
  intros Hin. rewrite Forall_forall in Hx. specialize (Hx x Hin).
  rewrite string_ltb_irrefl in Hx. discriminate.
Qed.

(** ** Groups partition the frame *)

Lemma list_sum_map_add {A} (f g : A -> nat) (l : list A) :
  list_sum (map (fun k => (f k + g k)%nat) l) =
  (list_sum (map f l) + list_sum (map g l))%nat.
Proof.
  induction l as [|x l IH]; [reflexivity|].
  cbn [map list_sum fold_right] in *. unfold list_sum in *.
  cbn [fold_right]. lia.
Qed.

Lemma sum_indicator_absent (c : string) (ks : list string) :
  ~ In c ks ->
  list_sum (map (fun k => if (c =? k)%string then 1%nat else 0%nat) ks) = 0%nat.
Proof.
  induction ks as [|k ks IH]; [reflexivity|]. intros H.
  cbn [map]. change (list_sum (?x :: ?l)) with (x + list_sum l)%nat.
  rewrite IH by (intros Hin; apply H; now right).
  destruct (String.eqb_spec c k) as [->|N]; [|reflexivity].
  exfalso. apply H. now left.
Qed.

Lemma sum_indicator_present (c : string) (ks : list string) :
  NoDup ks -> In c ks ->
  list_sum (map (fun k => if (c =? k)%string then 1%nat else 0%nat) ks) = 1%nat.
Proof.
  induction 1 as [|k ks Hk Hn IH]; [contradiction|]. intros Hin.
  cbn [map]. change (list_sum (?x :: ?l)) with (x + list_sum l)%nat.
  destruct (String.eqb_spec c k) as [->|N].
  - now rewrite sum_indicator_absent.
  - rewrite IH; [reflexivity|]. destruct Hin as [E|Hin]; [congruence|exact Hin].
Qed.

Lemma group_sizes_sum {R} (by_ : R -> string) (df : list R) (ks : list string) :
  NoDup ks -> (forall r, In r df -> In (by_ r) ks) ->
  list_sum (map (fun k => List.length
                            (filter (fun r => (by_ r =? k)%string) df)) ks) =
  List.length df.
Proof.
  intros Hn. induction df as [|x df IH]; intros Hin.
  - cbn [filter List.length]. clear Hn Hin. induction ks; [reflexivity|].
    cbn [map]. change (list_sum (?x :: ?l)) with (x + list_sum l)%nat.
    now rewrite IHks.
  - transitivity
      (list_sum (map (fun k =>
                        ((if (by_ x =? k)%string then 1 else 0) +
                         List.length
                           (filter (fun r => (by_ r =? k)%string) df))%nat)
                     ks)).
    + f_equal. apply map_ext. intros k. cbn [filter].
      now destruct (by_ x =? k)%string.
    + rewrite list_sum_map_add.
      rewrite IH by (intros r Hr; apply Hin; now right).
      rewrite (sum_indicator_present (by_ x) ks Hn (Hin x (or_introl eq_refl))).
      reflexivity.
Qed.

(** X7.  The category table of [category_analysis] accounts for every row of
    the catalog exactly once: the counts of its rows add up to the size of
    the catalog, every group holds at least one row, and all rows of a group
    are catalog rows of the group's category. *)
Theorem category_groups_partition (data : list Row) :
  Zsum (map row_count (category_stats data)) = len data /\
  (forall k rows,
      In (k, rows) (groupby (fun r : Row => category r) data) ->
      rows <> [] /\
      forall r : Row, In r rows -> category r = k /\ In r data).
Proof.
  split.
  - unfold category_stats, groupby. rewrite !map_map.
    cbn [category_stats_row row_count fst snd].
    assert (E : forall l : list string,
               Zsum (map (fun k => len (filter (fun r : Row =>
                                                  (category r =? k)%string)
                                               data)) l) =
               Z.of_nat (list_sum
                           (map (fun k => List.length
                                            (filter (fun r : Row =>
                                                       (category r =? k)%string)
                                                    data)) l))).
    { induction l as [|k l IH]; [reflexivity|].
      cbn [map Zsum fold_right] in *.
      change (list_sum (?x :: ?l)) with (x + list_sum l)%nat.
      unfold Zsum in *. cbn [fold_right]. rewrite IH. unfold len. lia. }
    rewrite E, (group_sizes_sum (fun r : Row => category r)).
    + reflexivity.
    + apply (StronglySorted_NoDup_keys _
               (sort_keys_sorted _ (NoDup_unique (categories data)))).
    + intros r Hr. apply In_sort_keys, In_unique. unfold categories.
      now apply (in_map (fun r : Row => category r)).
  - intros k rows Hin. unfold groupby in Hin. apply in_map_iff in Hin.
    destruct Hin as [k' [E Hk]]. inversion E; subst k' rows. clear E.
    apply (proj1 (In_sort_keys _ _)) in Hk.
    apply (proj1 (In_unique _ _)) in Hk. apply in_map_iff in Hk.
    destruct Hk as [r0 [E0 Hr0]]. split.
    + intros E.
      assert (H : In r0 (filter (fun r : Row => (category r =? k)%string)
                                data)).
      { apply filter_In. split; [exact Hr0|]. now apply String.eqb_eq. }
      rewrite E in H. exact H.
    + intros r Hr. apply filter_In in Hr. destruct Hr as [Hr Hc].
      split; [now apply String.eqb_eq|exact Hr].
Qed.

(** ** When the reports raise *)

Lemma idxmax_finite_series {L} (s : Series L) :
  s <> [] -> Forall (fun e => isnan (snd e) = false) s ->
  exists l, idxmax s = Ok l.
Proof.
  intros Hne Hfin. unfold idxmax.
  destruct (first_max s) as [[l x]|] eqn:F; [eauto|].
  apply first_max_None in F. destruct s as [|e s]; [congruence|].
  inversion F; subst. inversion Hfin; subst. congruence.
Qed.

Lemma sort_keys_nonempty l : l <> [] -> sort_keys l <> [].
Proof.
  destruct l as [|x l]; [congruence|]. intros _ E.
  assert (H : In x (sort_keys (x :: l))) by (apply In_sort_keys; now left).
  rewrite E in H. exact H.
Qed.

(** X8.  [category_analysis] fails with [ValueError] on the empty catalog,
    after the heading of the (empty) table, and ends normally on every other
    catalog.  This holds for every mean function that gives a number on a
    non-empty group, the exact mean among them. *)
Theorem category_analysis_outcome (rating_mean : list Q -> f64)
    (data : list Row) :
  (forall l, l <> [] -> isnan (rating_mean l) = false) ->
  outcome (category_analysis rating_mean data) =
  match data with
  | [] => Raise ValueError
  | _ :: _ => Ok tt
  end.
Proof.
  intros Hmean.
  destruct data as [|r data]; [reflexivity|].
  set (df := r :: data).
  assert (H1 : exists c, idxmax (category_counts df) = Ok c).
  { unfold idxmax. rewrite category_counts_first_max.
    apply (idxmax_finite_series
             (map (fun k => (k, F64.of_nat (count k (categories df))))
                  (unique (categories df)))).
    - discriminate.
    - apply Forall_forall. intros e He. apply in_map_iff in He.
      now destruct He as [k [<- _]]. }
  assert (H2 : exists c, idxmax (category_mean_rating rating_mean df) = Ok c).
  { rewrite category_mean_rating_eq. apply idxmax_finite_series.
    - intros E. apply map_eq_nil in E. revert E. apply sort_keys_nonempty.
      discriminate.
    - apply Forall_forall. intros e He. apply in_map_iff in He.
      destruct He as [k [<- Hk]]. cbn [snd].
      apply (proj1 (In_sort_keys _ _)) in Hk.
      apply (proj1 (In_unique _ _)) in Hk.
      apply Hmean. now apply group_ratings_nonempty. }
  destruct H1 as [c1 H1], H2 as [c2 H2].
  unfold category_analysis. run.
  rewrite (outcome_for_each_print (category_stats df) fst snd). run.
  rewrite H1. run. rewrite H2. run. reflexivity.
Qed.

(** X8 with the exact mean, on the catalog "Budget Balm", "Face Cream". *)
Lemma category_analysis_outcome_witness :
  outcome (category_analysis mean lips_then_face) = Ok tt.
Proof.
  refine (category_analysis_outcome mean lips_then_face _).
  intros l Hl. destruct l; [congruence|reflexivity].
Defined.

Lemma mode_nil : mode [] = [].
Proof. reflexivity. Qed.

(** X9.  [generate_insights] ends in one of three ways, decided by the
    catalog alone: on the empty catalog it raises [ZeroDivisionError] (the
    share of the $20-$40 range divides by the number of rows); on a catalog
    without a product rated 4.5 or more it raises [KeyError] (the mode of an
    empty selection has no first entry); on every other catalog it ends
    normally. *)
Theorem generate_insights_outcome (data : list Row) :
  outcome (generate_insights data) =
  match data, high_rated data with
  | [], _ => Raise ZeroDivisionError
  | _ :: _, [] => Raise KeyError
  | _ :: _, _ :: _ => Ok tt
  end.
Proof.
  destruct data as [|r data]; [reflexivity|].
  set (df := r :: data).
  assert (H1 : exists share,
             py_truediv (len (sweet_spot df)) (len df) = Ok share).
  { unfold py_truediv.
    destruct (Z.eqb_spec (len df) 0) as [E|_]; [|eauto].
    exfalso. revert E. apply len_nonzero. discriminate. }
  destruct H1 as [share H1].
  unfold generate_insights. run. rewrite H1. run.
  destruct (high_rated df) as [|h hs] eqn:Eh.
  - reflexivity.
  - destruct (mode (categories (h :: hs))) as [|mc ms] eqn:Em.
    + exfalso. revert Em. apply mode_nonempty. discriminate.
    + reflexivity.
Qed.

(** ** The two products singled out by [summary_statistics] *)

Lemma enumerate_from_split {A} k (l : list A) b i x a :
  enumerate_from k l = (b ++ (i, x) :: a)%list ->
  (k <= i)%nat /\
  (forall e, In e b -> (fst e < i)%nat) /\
  (forall e, In e a -> (i < fst e)%nat).
Proof.
  revert k l. induction b as [|e b IH]; intros k l E.
  - destruct l as [|y l]; [discriminate|]. simpl in E.
    inversion E; subst. split; [lia|]. split; [intros e []|].
    intros [j z] Hj. apply In_enumerate_from in Hj. simpl. lia.
  - destruct l as [|y l]; [discriminate|]. simpl in E.
    inversion E as [[Ee Eb]]. destruct (IH _ _ Eb) as [Hk [Hb Ha]].
    split; [lia|]. split; [|exact Ha].
    intros e' [<-|He']; [simpl; lia|now apply Hb].
Qed.

Lemma idxmax_column_first {R} (f : R -> f64) (df : list R) i :
  idxmax (enumerate (map f df)) = Ok i ->
  exists r,
    nth_error df i = Some r /\ isnan (f r) = false /\
    (forall r', In r' df -> F64.ltb (f r) (f r') = false) /\
    (forall j r', (j < i)%nat -> nth_error df j = Some r' ->
                  isnan (f r') = true \/ F64.ltb (f r') (f r) = true).
Proof.
  unfold idxmax, enumerate.
  destruct (first_max (enumerate_from 0 (map f df))) as [[l x]|] eqn:F;
    [|discriminate].
  intros E. inversion E; subst l. clear E.
  destruct (first_max_In _ _ _ F) as [Hin Nx].
  apply In_enumerate_from in Hin. destruct Hin as [_ Hin].
  rewrite Nat.sub_0_r, nth_error_map in Hin.
  destruct (nth_error df i) as [r|] eqn:Er; [|discriminate].
  simpl in Hin. inversion Hin; subst x. clear Hin.
  apply first_max_spec in F. destruct F as [b [a [Es [Hb Ha]]]].
  destruct (enumerate_from_split _ _ _ _ _ _ Es) as [_ [Lb La]].
  assert (Hpos : forall j r', nth_error df j = Some r' ->
                 In (j, f r') (b ++ (i, f r) :: a)).
  { intros j r' Hj. rewrite <- Es.
    apply (nth_error_enumerate_from 0). rewrite nth_error_map, Hj.
    reflexivity. }
  exists r. split; [reflexivity|]. split; [exact Nx|]. split.
  - intros r' Hr'. apply In_nth_error in Hr'. destruct Hr' as [j Hj].
    specialize (Hpos j r' Hj). apply in_app_or in Hpos.
    destruct Hpos as [H|[H|H]].
    + destruct (Hb _ H) as [N|Hl]; cbn [snd] in *.
      * now apply ltb_nan_r.
      * now apply ltb_asym.
    + inversion H. apply ltb_irrefl.
    + exact (Ha _ H).
  - intros j r' Hlt Hj. specialize (Hpos j r' Hj). apply in_app_or in Hpos.
    destruct Hpos as [H|[H|H]].
    + exact (Hb _ H).
    + inversion H. lia.
    + specialize (La _ H). simpl in La. lia.
Qed.

Lemma summary_statistics_selected (data : list Row) :
  outcome (summary_statistics data) = Ok tt ->
  exists i most_expensive j best_value,
    idxmax (price_series data) = Ok i /\
    nth_error data i = Some most_expensive /\
    idxmax (value_score_series data) = Ok j /\
    nth_error data j = Some best_value /\
    reported (summary_statistics data) "most_expensive:"
             [VStr (product_name most_expensive);
              VInt (price most_expensive)] /\
    reported (summary_statistics data) "best_value:"
             [VStr (product_name best_value); VInt (price best_value);
              VNum (Fin (rating best_value))].
Proof.
  unfold reported, summary_statistics. run.
  destruct (idxmax (price_series data)) as [i|] eqn:Ei; [|discriminate]. run.
  unfold loc.
  destruct (nth_error data i) as [r|] eqn:Er; [|discriminate]. run.
  destruct (idxmax (value_score_series data)) as [j|] eqn:Ej; [|discriminate].
  run.
  destruct (nth_error data j) as [r'|] eqn:Er'; [|discriminate]. run.
  intros _. exists i, r, j, r'. repeat (split; [reflexivity|]).
  split; repeat (apply in_or_app; right); simpl; tauto.
Qed.

(** X10.  When [summary_statistics] ends normally, the product it prints as
    most expensive is a catalog row whose price no row exceeds, and every row
    before it in the catalog is strictly cheaper: among equally expensive
    products the first one is printed. *)
Theorem summary_most_expensive_is_first_maximum (data : list Row) :
  outcome (summary_statistics data) = Ok tt ->
  exists i (r : Row),
    nth_error data i = Some r /\
    reported (summary_statistics data) "most_expensive:"
             [VStr (product_name r); VInt (price r)] /\
    (forall r' : Row, In r' data -> price r' <= price r) /\
    (forall j (r' : Row),
        (j < i)%nat -> nth_error data j = Some r' -> price r' < price r).
Proof.
  intros Hok.
  destruct (summary_statistics_selected data Hok)
    as [i [r [_ [_ [Ei [Er [_ [_ [Hrep _]]]]]]]]].
  exists i, r. split; [exact Er|]. split; [exact Hrep|].
  unfold price_series in Ei.
  destruct (idxmax_column_first (fun r : Row => F64.of_Z (price r)) data i Ei)
    as [r0 [Er0 [_ [Hmax Hfirst]]]].
  rewrite Er in Er0. inversion Er0; subst r0. split.
  - intros r' Hr'. specialize (Hmax r' Hr'). simpl in Hmax.
    rewrite Qltb_inject in Hmax. now apply Z.ltb_ge.
  - intros j r' Hlt Hj. destruct (Hfirst j r' Hlt Hj) as [N|H].
    + discriminate.
    + simpl in H. rewrite Qltb_inject in H. now apply Z.ltb_lt.
Qed.

(** X10 on the catalog "Budget Balm", "Face Cream". *)
Lemma summary_most_expensive_is_first_maximum_witness :
  exists i (r : Row),
    nth_error lips_then_face i = Some r /\
    reported (summary_statistics lips_then_face) "most_expensive:"
             [VStr (product_name r); VInt (price r)] /\
    (forall r' : Row, In r' lips_then_face -> price r' <= price r) /\
    (forall j (r' : Row),
        (j < i)%nat -> nth_error lips_then_face j = Some r' ->
        price r' < price r).
Proof.
  exact (summary_most_expensive_is_first_maximum lips_then_face eq_refl).
Defined.

(** X11.  When [summary_statistics] ends normally, the product it prints as
    best value is a catalog row with a value score other than [nan] that no
    row's score exceeds, and every row before it in the catalog has no score
    or a strictly lower one.  A row scoring [inf] (price 0, positive rating)
    is therefore preferred to every row with a finite score. *)
Theorem summary_best_value_is_first_maximum (data : list Row) :
  outcome (summary_statistics data) = Ok tt ->
  exists j (r : Row),
    nth_error data j = Some r /\
    reported (summary_statistics data) "best_value:"
             [VStr (product_name r); VInt (price r); VNum (Fin (rating r))] /\
    isnan (value_score r) = false /\
    (forall r' : Row,
        In r' data -> F64.ltb (value_score r) (value_score r') = false) /\
    (forall k (r' : Row),
        (k < j)%nat -> nth_error data k = Some r' ->
        isnan (value_score r') = true \/
        F64.ltb (value_score r') (value_score r) = true).
Proof.
  intros Hok.
  destruct (summary_statistics_selected data Hok)
    as [_ [_ [j [r [_ [_ [Ej [Er [_ Hrep]]]]]]]]].
  exists j, r. split; [exact Er|]. split; [exact Hrep|].
  unfold value_score_series in Ej.
  destruct (idxmax_column_first value_score data j Ej)
    as [r0 [Er0 [N [Hmax Hfirst]]]].
  rewrite Er in Er0. inversion Er0; subst r0. auto.
Qed.

(** X11 on the catalog "Budget Balm", "Face Cream". *)
Lemma summary_best_value_is_first_maximum_witness :
  exists j (r : Row),
    nth_error lips_then_face j = Some r /\
    reported (summary_statistics lips_then_face) "best_value:"
             [VStr (product_name r); VInt (price r); VNum (Fin (rating r))] /\
    isnan (value_score r) = false /\
    (forall r' : Row,
        In r' lips_then_face ->
        F64.ltb (value_score r) (value_score r') = false) /\
    (forall k (r' : Row),
        (k < j)%nat -> nth_error lips_then_face k = Some r' ->
        isnan (value_score r') = true \/
        F64.ltb (value_score r') (value_score r) = true).
Proof.
  exact (summary_best_value_is_first_maximum lips_then_face eq_refl).
Defined.

(** ** The value score as a measure *)

Lemma value_score_positive_price (p : Product) :
  0 < price p ->
  value_score_of p = Fin (Qred (rating p / (inject_Z (price p) / 10))) /\
  (0 < inject_Z (price p) / 10)%Q.
Proof.
  intros Hp.
  assert (Hq : (0 < inject_Z (price p) / 10)%Q).
  { apply Qlt_shift_div_l; [reflexivity|]. rewrite Qmult_0_l.
    unfold Qlt. simpl. lia. }
  split; [|exact Hq]. unfold value_score_of, F64.div.
  destruct (Qeq_bool (inject_Z (price p) / 10) 0) eqn:E; [|reflexivity].
  apply Qeq_bool_iff in E. rewrite E in Hq. discriminate.
Qed.

Lemma quotient_monotone (r1 r2 d1 d2 : Q) :
  (0 < d1)%Q -> (d1 <= d2)%Q -> (0 <= r2)%Q -> (r2 <= r1)%Q ->
  (r2 / d2 <= r1 / d1)%Q.
Proof.
  intros H1 H12 H2 H21.
  assert (Hd2 : (0 < d2)%Q) by lra.
  apply Qle_shift_div_r; [exact Hd2|].
  assert (E : (r1 / d1 * d2 == r1 + r1 / d1 * (d2 - d1))%Q).
  { field. lra. }
  rewrite E.
  assert (H0 : (0 <= r1 / d1)%Q).
  { apply Qle_shift_div_l; [exact H1|]. lra. }
  assert (H3 : (0 <= r1 / d1 * (d2 - d1))%Q).
  { apply Qmult_le_0_compat; [exact H0|lra]. }
  lra.
Qed.

Lemma quotient_strictly_monotone (r d1 d2 : Q) :
  (0 < d1)%Q -> (d1 < d2)%Q -> (0 < r)%Q -> (r / d2 < r / d1)%Q.
Proof.
  intros H1 H12 Hr.
  assert (Hd2 : (0 < d2)%Q) by lra.
  apply Qlt_shift_div_r; [exact Hd2|].
  assert (E : (r / d1 * d2 == r + r / d1 * (d2 - d1))%Q).
  { field. lra. }
  rewrite E.
  assert (H0 : (0 < r / d1)%Q).
  { apply Qlt_shift_div_l; [exact H1|]. lra. }
  assert (H3 : (0 < r / d1 * (d2 - d1))%Q).
  { apply Qmult_lt_0_compat; [exact H0|lra]. }
  lra.
Qed.

(** X12.  Among products of positive price the value score rewards a lower
    price and a higher rating: a product that costs no more than another and
    is rated no lower (ratings not negative) never scores lower, and at equal
    positive rating the strictly cheaper product scores strictly higher. *)
Theorem value_score_rewards_cheaper_and_better (p1 p2 : Product) :
  0 < price p1 -> price p1 <= price p2 ->
  (0 <= rating p2)%Q -> (rating p2 <= rating p1)%Q ->
  F64.ltb (value_score_of p1) (value_score_of p2) = false /\
  (price p1 < price p2 -> (0 < rating p2)%Q ->
   (rating p1 == rating p2)%Q ->
   F64.ltb (value_score_of p2) (value_score_of p1) = true).
Proof.
  intros Hp1 Hp12 Hr2 Hr21.
  destruct (value_score_positive_price p1 Hp1) as [-> Hd1].
  destruct (value_score_positive_price p2 ltac:(lia)) as [-> Hd2].
  assert (Hd : (inject_Z (price p1) / 10 <= inject_Z (price p2) / 10)%Q).
  { apply Qmult_le_compat_r; [|discriminate]. now rewrite <- Zle_Qle. }
  cbn [F64.ltb]. split.
  - apply Qltb_ge. rewrite !Qred_correct. now apply quotient_monotone.
  - intros Hlt Hpos Heq. apply Qltb_lt. rewrite !Qred_correct, Heq.
    apply quotient_strictly_monotone; [exact Hd1| |exact Hpos].
    apply Qmult_lt_compat_r; [reflexivity|]. now rewrite <- Zlt_Qlt.
Qed.

(** X12 on "Budget Balm" (price 10) and "Face Cream" (price 30), both rated
    4.0. *)
Lemma value_score_rewards_cheaper_and_better_witness :
  F64.ltb (value_score_of budget_balm) (value_score_of face_cream) = false.
Proof.
  refine (proj1 (value_score_rewards_cheaper_and_better
                   budget_balm face_cream _ _ _ _)).
  - simpl. lia.
  - simpl. lia.
  - discriminate.
  - discriminate.
Defined.

(** ** The data of the charts *)

Lemma In_enumerate_from_lt {A} k (l : list A) i x :
  In (i, x) (enumerate_from k l) -> (i < k + List.length l)%nat.
Proof.
  revert k. induction l as [|y l IH]; intros k; simpl; [tauto|].
  intros [E|H]; [inversion E; lia|]. apply IH in H. lia.
Qed.

Lemma map_snd_enumerate_from {A} k (l : list A) :
  map snd (enumerate_from k l) = l.
Proof.
  revert k. induction l as [|y l IH]; intros k; simpl; [reflexivity|].
  now rewrite IH.
Qed.

(** X13.  The point sets of the scatter plot split the catalog by category:
    the categories come in order of first appearance, each once; every colour
    index is within the palette; every point set is non-empty and holds
    exactly catalog rows of its category; and the sizes of the point sets add
    up to the size of the catalog. *)
Theorem scatter_groups_partition (data : list Row) :
  map (fun g => fst (snd g)) (scatter_groups data) = unique (categories data) /\
  NoDup (map (fun g => fst (snd g)) (scatter_groups data)) /\
  (forall i c rows,
      In (i, (c, rows)) (scatter_groups data) ->
      (i < palette_size data)%nat /\ rows <> [] /\
      forall r : Row, In r rows <-> In r data /\ category r = c) /\
  list_sum (map (fun g => List.length (snd (snd g))) (scatter_groups data)) =
  List.length data.
Proof.
  assert (Hk : map (fun g => fst (snd g)) (scatter_groups data) =
               unique (categories data)).
  { unfold scatter_groups, enumerate. rewrite map_map. cbn [fst snd].
    apply map_snd_enumerate_from. }
  split; [exact Hk|]. split; [rewrite Hk; apply NoDup_unique|]. split.
  - intros i c rows Hin. unfold scatter_groups in Hin.
    apply in_map_iff in Hin. destruct Hin as [[j k] [E Hjk]].
    cbn [fst snd] in E. inversion E; subst j k rows. clear E.
    unfold enumerate in Hjk.
    pose proof (In_enumerate_from_lt _ _ _ _ Hjk) as Hlt.
    apply In_enumerate_from in Hjk. destruct Hjk as [_ Hc].
    apply nth_error_In in Hc. apply (proj1 (In_unique _ _)) in Hc.
    apply in_map_iff in Hc. destruct Hc as [r0 [E0 Hr0]].
    split; [exact Hlt|]. split.
    + intros E.
      assert (H : In r0 (filter (fun r : Row => (category r =? c)%string)
                                data)).
      { apply filter_In. split; [exact Hr0|]. now apply String.eqb_eq. }
      rewrite E in H. exact H.
    + intros r. rewrite filter_In, String.eqb_eq. tauto.
  - unfold scatter_groups, enumerate. rewrite map_map. cbn [fst snd].
    rewrite <- (group_sizes_sum (fun r : Row => category r) data
                  (unique (categories data)) (NoDup_unique _)).
    + rewrite <- (map_snd_enumerate_from 0 (unique (categories data))) at 2.
      now rewrite map_map.
    + intros r Hr. apply In_unique. unfold categories.
      now apply (in_map (fun r : Row => category r)).
Qed.

Lemma insert_desc_sorted {A} (key : A -> f64) x l :
  StronglySorted (fun a b => lt_nanlast (key a) (key b) = false) l ->
  StronglySorted (fun a b => lt_nanlast (key a) (key b) = false)
                 (insert_desc key x l).
Proof.
  induction 1 as [|y l Hs IH Hy]; simpl; [repeat constructor|].
  destruct (lt_nanlast (key x) (key y)) eqn:E.
  - constructor; [exact IH|]. apply Forall_forall. intros z Hz.
    apply In_insert_desc_any in Hz. destruct Hz as [->|Hz].
    + now apply lt_nanlast_asym.
    + rewrite Forall_forall in Hy. now apply Hy.
  - constructor; [now constructor|]. constructor; [exact E|].
    eapply Forall_impl; [|exact Hy]. intros z Hz.
    eapply lt_nanlast_negtrans; eauto.
Qed.

Lemma sort_desc_sorted {A} (key : A -> f64) l :
  StronglySorted (fun a b => lt_nanlast (key a) (key b) = false)
                 (sort_desc key l).
Proof.
  induction l as [|x l IH]; simpl; [constructor|].
  now apply insert_desc_sorted.
Qed.

Lemma lt_nanlast_of_nat a b :
  lt_nanlast (F64.of_nat a) (F64.of_nat b) = (a <? b)%nat.
Proof. exact (of_nat_ltb a b). Qed.

Lemma count_present c l : In c l -> (1 <= count c l)%nat.
Proof.
  intros H. unfold count.
  assert (Hf : In c (filter (fun y => (y =? c)%string) l)).
  { apply filter_In. split; [exact H|]. apply String.eqb_refl. }
  destruct (filter (fun y => (y =? c)%string) l); [contradiction|].
  simpl. lia.
Qed.

(** X14.  The bar chart of brands shows at most ten brands, each once and
    each with the number of its products in the catalog (at least 1), in
    order of never-increasing numbers; a brand of the catalog that is not
    shown has no more products than any brand shown. *)
Theorem top_brands_are_the_largest (data : list Row) :
  (List.length (top_brands data) <= 10)%nat /\
  NoDup (map fst (top_brands data)) /\
  (forall b n,
      In (b, n) (top_brands data) ->
      n = count b (map (fun r : Row => brand r) data) /\ (1 <= n)%nat) /\
  StronglySorted (fun a b : string * nat => (snd b <= snd a)%nat)
                 (top_brands data) /\
  (forall (r : Row) e,
      In r data -> ~ In (brand r) (map fst (top_brands data)) ->
      In e (top_brands data) ->
      (count (brand r) (map (fun r : Row => brand r) data) <= snd e)%nat).
Proof.
  unfold top_brands, value_counts.
  set (brands := map (fun r : Row => brand r) data).
  set (key := fun e : string * nat => F64.of_nat (snd e)).
  set (counted := map (fun k => (k, count k brands)) (unique brands)).
  assert (Hs : StronglySorted (fun a b => lt_nanlast (key a) (key b) = false)
                              (sort_desc key counted))
    by apply sort_desc_sorted.
  split; [apply firstn_le_length|].
  split.
  { rewrite <- firstn_map. apply NoDup_firstn_list, sort_desc_NoDup_map.
    subst counted. rewrite map_map. cbn [fst]. rewrite map_id.
    apply NoDup_unique. }
  split.
  { intros b n Hin. apply In_firstn in Hin.
    apply (proj1 (In_sort_desc_any _ _ _)) in Hin. subst counted.
    apply in_map_iff in Hin. destruct Hin as [k [E Hk]].
    inversion E; subst. split; [reflexivity|].
    apply count_present. now apply (proj1 (In_unique _ _)). }
  split.
  { apply StronglySorted_firstn.
    eapply StronglySorted_weaken; [|exact Hs].
    intros a b H. unfold key in H. rewrite lt_nanlast_of_nat in H.
    now apply Nat.ltb_ge. }
  intros r e Hr Hout He.
  assert (Hin : In (brand r, count (brand r) brands) (sort_desc key counted)).
  { apply In_sort_desc_any. subst counted.
    apply (in_map (fun k => (k, count k brands))), In_unique.
    subst brands. now apply (in_map (fun r : Row => brand r)). }
  rewrite <- (firstn_skipn 10 (sort_desc key counted)) in Hin.
  apply in_app_or in Hin. destruct Hin as [Hin|Hin].
  - exfalso. apply Hout.
    now apply (in_map fst) in Hin.
  - pose proof (StronglySorted_split _ 10 _ _ _ Hs He Hin) as H.
    unfold key in H. cbn [snd] in H. rewrite lt_nanlast_of_nat in H.
    now apply Nat.ltb_ge.
Qed.

(** X15.  The bar chart of mean prices has one bar per category of the
    catalog, each category once; every bar is a number (no group is empty),
    namely the mean price of the category's rows, and the bars come in order
    of never-increasing height. *)
Theorem category_prices_descending (data : list Row) :
  NoDup (map fst (category_prices data)) /\
  (forall c, In c (map fst (category_prices data)) <-> In c (categories data)) /\
  (forall c x,
      In (c, x) (category_prices data) ->
      x = mean (prices (filter (fun r : Row => (category r =? c)%string) data))
      /\ exists q, x = Fin q) /\
  StronglySorted (fun a b : string * f64 => F64.ltb (snd a) (snd b) = false)
                 (category_prices data).
Proof.
  unfold category_prices.
  set (means := map (fun g : string * list Row =>
                       (fst g, mean (prices (snd g))))
                    (groupby (fun r : Row => category r) data)).
  assert (Hk : map fst means = sort_keys (unique (categories data))).
  { subst means. rewrite map_map. cbn [fst].
    apply (groupby_keys (fun r : Row => category r)). }
  split.
  { apply sort_desc_NoDup_map. rewrite Hk.
    apply StronglySorted_NoDup_keys, sort_keys_sorted, NoDup_unique. }
  split.
  { intros c. split.
    - intros Hin. apply in_map_iff in Hin. destruct Hin as [e [E He]].
      apply (proj1 (In_sort_desc_any _ _ _)) in He.
      apply (in_map fst) in He. rewrite Hk, E in He.
      apply (proj1 (In_sort_keys _ _)) in He.
      now apply (proj1 (In_unique _ _)) in He.
    - intros Hin. apply (proj2 (In_unique _ _)) in Hin.
      apply (proj2 (In_sort_keys _ _)) in Hin. rewrite <- Hk in Hin.
      apply in_map_iff in Hin. destruct Hin as [e [E He]].
      apply in_map_iff. exists e. split; [exact E|].
      now apply In_sort_desc_any. }
  split.
  { intros c x Hin. apply (proj1 (In_sort_desc_any _ _ _)) in Hin.
    subst means. apply in_map_iff in Hin. destruct Hin as [[k rows] [E Hg]].
    cbn [fst snd] in E. inversion E; subst k x. clear E.
    unfold groupby in Hg. apply in_map_iff in Hg.
    destruct Hg as [k [E Hk']]. inversion E; subst k rows. clear E.
    split; [reflexivity|].
    apply (proj1 (In_sort_keys _ _)) in Hk'.
    apply (proj1 (In_unique _ _)) in Hk'. apply in_map_iff in Hk'.
    destruct Hk' as [r0 [E0 Hr0]].
    assert (H : In r0 (filter (fun r : Row => (category r =? c)%string) data)).
    { apply filter_In. split; [exact Hr0|]. now apply String.eqb_eq. }
    destruct (filter (fun r : Row => (category r =? c)%string) data);
      [contradiction|].
    simpl. eauto. }
  eapply StronglySorted_weaken; [|apply sort_desc_sorted].
  intros a b H. now apply lt_nanlast_ge.
Qed.
